(** * The iris prediction service: Flask handlers (app.py) and the trainer
      (iris_train.py), embedded as functions over an explicit world.

    The two scripts are glue around CPython, Flask, scikit-learn and joblib.
    What the scripts themselves do (key lookups, the order of the calls, the
    file name, the text that is sent back) is written out below; what the
    libraries compute (fitting, predicting, pickling, printing an array) is
    taken as the fields of the class [Library]. Python is CPython 3 and
    Flask is the 1.x line that goes with [sklearn.externals.joblib], with
    the werkzeug of that line, served by waitress 1.4.

    A Python str is carried as its UTF-8 bytes. JSON can put a lone surrogate
    into a str ("\ud800"), which has no UTF-8 encoding; such a code point is
    carried in the three bytes the same scheme would give it (237, then a
    byte from 160 to 191, then one more). A [string] that is not of this
    form stands for no Python str. *)

From Stdlib Require Import ZArith String Ascii List DecimalString Bool Lia.
From stdpp Require Import gmap strings list fin_maps.

Open Scope string_scope.

(** ** Python values as [request.get_json()] hands them to a view *)

Module Py.

(** A float is carried as the text CPython prints for it (the shortest decimal
    that reads back to the same double); its arithmetic is scikit-learn's and
    is not part of this development. A dict keeps its items in insertion
    order, as CPython does. *)
#[warnings="-register-all"]
Inductive pyval : Type :=
| PyNone
| PyBool (b : bool)
| PyInt (n : Z)
| PyFloat (printed : string)
| PyStr (s : string)
| PyList (items : list pyval)
| PyDict (items : list (string * pyval)).

(** The exceptions that can reach Flask from the two views. [BadRequest] is
    werkzeug's HTTP exception (status 400); every other one is a plain Python
    exception. [LibraryError] stands for whatever scikit-learn, numpy or
    pickle raise from inside. *)
Inductive exn : Type :=
| BadRequest
| KeyError (key : string)
| TypeError
| IndexError
| ValueError
| FileNotFoundError (path : string)
| LibraryError (what : string).

Inductive result (A : Type) : Type :=
| Ok (a : A)
| Raise (e : exn).
Arguments Ok {A} a.
Arguments Raise {A} e.

(** What a library call gives back: a value, or a failure it describes. *)
Inductive lib_result (A : Type) : Type :=
| Done (a : A)
| Failed (what : string).
Arguments Done {A} a.
Arguments Failed {A} what.

Definition dquote : ascii := "034"%char.
Definition squote : ascii := "039"%char.
Definition backslash : ascii := "092"%char.

Fixpoint contains (c : ascii) (s : string) : bool :=
  match s with
  | EmptyString => false
  | String d rest => Ascii.eqb c d || contains c rest
  end.

Definition hex_digit (n : N) : ascii :=
  if (n <? 10)%N then ascii_of_N (48 + n) else ascii_of_N (87 + n).

(** [width] lowercase hexadecimal digits of [n], written in front of [rest]. *)
Fixpoint hex (width : nat) (n : N) (rest : string) : string :=
  match width with
  | O => rest
  | S k => hex k (n / 16) (String (hex_digit (n mod 16)) rest)
  end.

(** [s.encode("utf-8")] succeeds: no lone surrogate in [s]. In the bytes
    that carry a str, byte 237 followed by a byte from 160 to 191 is the
    start of a surrogate and nothing else. *)
Fixpoint utf8_encodable (s : string) : bool :=
  match s with
  | EmptyString => true
  | String c rest =>
      match rest with
      | String d _ =>
          negb ((N_of_ascii c =? 237)%N
                && (160 <=? N_of_ascii d)%N && (N_of_ascii d <=? 191)%N)
      | EmptyString => true
      end && utf8_encodable rest
  end.

(** Every byte is below 128. *)
Fixpoint ascii_only (s : string) : bool :=
  match s with
  | EmptyString => true
  | String c rest => (N_of_ascii c <? 128)%N && ascii_only rest
  end.

(** One ASCII character of [repr(str)]: the quote in use and the backslash
    are escaped, tab, newline and carriage return get their letters, the
    other control characters become [\xhh], the rest is kept. *)
Definition repr_char (quote c : ascii) : string :=
  let n := N_of_ascii c in
  if Ascii.eqb c quote || Ascii.eqb c backslash then String backslash (String c "")
  else if (n =? 9)%N then String backslash "t"
  else if (n =? 10)%N then String backslash "n"
  else if (n =? 13)%N then String backslash "r"
  else if (n <? 32)%N || (n =? 127)%N
       then String backslash (String "x" (String (hex_digit (n / 16)) (String (hex_digit (n mod 16)) "")))
  else String c "".

Definition int_str (n : Z) : string := NilZero.string_of_int (Z.to_int n).

(** The six bits a continuation byte carries. *)
Definition low6 (c : ascii) : N := (N_of_ascii c mod 64)%N.

(** The escape of a code point that [repr] does not print: [\xhh] below 256,
    [\uhhhh] below 65536, [\Uhhhhhhhh] from there. *)
Definition escape_code (cp : N) : string :=
  if (cp <? 256)%N then String backslash (String "x" (hex 2 cp ""))
  else if (cp <? 65536)%N then String backslash (String "u" (hex 4 cp ""))
  else String backslash (String "U" (hex 8 cp "")).

Section Repr.

(** [str.isprintable] for one code point from 128 up, as the interpreter's
    Unicode database has it. The table is CPython's; the surrogates, which
    are never printable, are written out here. *)
Variable printable : N -> bool.

Definition is_printable (cp : N) : bool :=
  if (55296 <=? cp)%N && (cp <=? 57343)%N then false else printable cp.

(** A character from 128 up in [repr(str)]: kept as it is when it is
    printable, escaped by its code point when it is not. *)
Definition repr_code (cp : N) (raw : string) : string :=
  if is_printable cp then raw else escape_code cp.

(** The characters of a str between the quotes of its [repr], decoding the
    two, three and four byte forms for the code point. A byte that starts no
    character does not occur in the bytes of a str; it is kept. *)
Fixpoint repr_chars (quote : ascii) (s : string) : string :=
  match s with
  | EmptyString => EmptyString
  | String c rest =>
      let n := N_of_ascii c in
      if (n <? 128)%N then repr_char quote c ++ repr_chars quote rest
      else if (194 <=? n)%N && (n <? 224)%N then
        match rest with
        | String c1 rest1 =>
            repr_code ((n mod 32) * 64 + low6 c1)%N (String c (String c1 ""))
            ++ repr_chars quote rest1
        | _ => s
        end
      else if (224 <=? n)%N && (n <? 240)%N then
        match rest with
        | String c1 (String c2 rest2) =>
            repr_code (((n mod 16) * 64 + low6 c1) * 64 + low6 c2)%N
                      (String c (String c1 (String c2 "")))
            ++ repr_chars quote rest2
        | _ => s
        end
      else if (240 <=? n)%N && (n <? 245)%N then
        match rest with
        | String c1 (String c2 (String c3 rest3)) =>
            repr_code ((((n mod 8) * 64 + low6 c1) * 64 + low6 c2) * 64 + low6 c3)%N
                      (String c (String c1 (String c2 (String c3 ""))))
            ++ repr_chars quote rest3
        | _ => s
        end
      else String c (repr_chars quote rest)
  end.

(** [repr] of a str: single quotes, unless the text has a single quote and no
    double quote. *)
Definition str_repr (s : string) : string :=
  let quote := if contains squote s && negb (contains dquote s) then dquote else squote in
  String quote (repr_chars quote s ++ String quote "").

Fixpoint py_repr (v : pyval) : string :=
  match v with
  | PyNone => "None"
  | PyBool true => "True"
  | PyBool false => "False"
  | PyInt n => int_str n
  | PyFloat printed => printed
  | PyStr s => str_repr s
  | PyList items => "[" ++ String.concat ", " (map py_repr items) ++ "]"
  | PyDict items =>
      "{" ++ String.concat ", "
               (map (fun kv => match kv with
                               | (k, x) => str_repr k ++ ": " ++ py_repr x
                               end) items) ++ "}"
  end.

(** [str(v)]: a str is itself, everything else prints as its [repr]. *)
Definition py_str (v : pyval) : string :=
  match v with
  | PyStr s => s
  | _ => py_repr v
  end.

(** [template.format] over positional arguments, for templates whose replacement fields are all
    the automatic [{}]; a doubled brace is a literal brace. Each field takes
    the next argument and renders it with an empty format spec, which is
    [str(v)] for every [pyval]. Fields with names, indices, conversions or format
    specs are outside this fragment; the function answers [ValueError] at
    them, as CPython does at a lone brace. *)
Fixpoint format (template : string) (args : list pyval) : result string :=
  match template with
  | EmptyString => Ok EmptyString
  | String "{" (String "}" rest) =>
      match args with
      | [] => Raise IndexError
      | a :: args' =>
          match format rest args' with
          | Ok s => Ok (py_str a ++ s)
          | Raise e => Raise e
          end
      end
  | String "{" (String "{" rest) =>
      match format rest args with
      | Ok s => Ok (String "{" s)
      | Raise e => Raise e
      end
  | String "}" (String "}" rest) =>
      match format rest args with
      | Ok s => Ok (String "}" s)
      | Raise e => Raise e
      end
  | String "{" _ => Raise ValueError
  | String "}" _ => Raise ValueError
  | String c rest =>
      match format rest args with
      | Ok s => Ok (String c s)
      | Raise e => Raise e
      end
  end.

End Repr.

Fixpoint dict_get (items : list (string * pyval)) (key : string) : option pyval :=
  match items with
  | [] => None
  | (k, x) :: rest => if String.eqb k key then Some x else dict_get rest key
  end.

(** [obj[key]] with a str key: a dict answers with the value or [KeyError];
    a list or a str wants integer indices and None, bool, int and float are
    not subscriptable, all of which is [TypeError]. *)
Definition getitem (obj : pyval) (key : string) : result pyval :=
  match obj with
  | PyDict items =>
      match dict_get items key with
      | Some x => Ok x
      | None => Raise (KeyError key)
      end
  | _ => Raise TypeError
  end.

(** The value a JSON body holds under [key], if it is an object with that key. *)
Definition has_key (obj : pyval) (key : string) : option pyval :=
  match obj with
  | PyDict items => dict_get items key
  | _ => None
  end.

End Py.
Import Py.

(** ** The world the scripts run in *)

Abbreviation bytes := (list Byte.byte).

(** What a script does to the outside, in the order it does it. *)
Inductive event : Type :=
| LoadDataset                      (* load_iris() *)
| Construct (n_neighbors : N)      (* KNeighborsClassifier(...) *)
| Fit                              (* knn.fit(X, y) *)
| Dump (path : string)             (* joblib.dump(obj, path) writes path *)
| Load (path : string)             (* joblib.load(path) opens path *)
| Predict (X : pyval)              (* model.predict(X) *)
| ServeStatic (rest : string).     (* Flask's static rule is given /static/rest *)

Definition is_write (e : event) : bool :=
  match e with
  | Dump _ => true
  | _ => false
  end.

Definition is_file_access (e : event) : bool :=
  match e with
  | Dump _ | Load _ => true
  | _ => false
  end.

(** The files on disk and the trace of what has happened so far. Neither
    script keeps anything else between two statements: app.py has no global
    besides [app] itself. *)
Record world : Type := World {
  files : gmap string bytes;
  trace : list event
}.

(** A computation reads and changes the world and returns or raises; what it
    did before raising stays done. *)
Definition M (A : Type) : Type := world -> result A * world.

Definition ret {A} (a : A) : M A := fun w => (Ok a, w).

Definition raise {A} (e : exn) : M A := fun w => (Raise e, w).

Definition bind {A B} (c : M A) (k : A -> M B) : M B :=
  fun w =>
    match c w with
    | (Ok a, w') => k a w'
    | (Raise e, w') => (Raise e, w')
    end.

#[global] Instance M_ret : MRet M := @ret.
#[global] Instance M_bind : MBind M := fun A B k c => bind c k.

(** The world after further events that change no file. *)
Definition after (w : world) (evs : list event) : world :=
  {| files := files w; trace := trace w ++ evs |}.

Definition emit (e : event) : M unit :=
  fun w => (Ok tt, {| files := files w; trace := trace w ++ [e] |}).

Definition of_result {A} (r : result A) : M A := fun w => (r, w).

Definition of_lib {A} (r : lib_result A) : M A :=
  match r with
  | Done a => ret a
  | Failed what => raise (LibraryError what)
  end.

(** ** Requests and responses *)

Inductive http_method : Type := GET | HEAD | OPTIONS | POST | PUT | DELETE | PATCH.

Definition http_method_eqb (a b : http_method) : bool :=
  match a, b with
  | GET, GET | HEAD, HEAD | OPTIONS, OPTIONS | POST, POST
  | PUT, PUT | DELETE, DELETE | PATCH, PATCH => true
  | _, _ => false
  end.

(** What [request.get_json()] finds: a body that is not declared as JSON, one
    that is but does not parse, or a parsed value. *)
Inductive json_body : Type :=
| NoJson
| Malformed
| Json (v : pyval).

(** [path] is the path of the request line as waitress has parsed and
    unquoted it. *)
Record request : Type := Request {
  method : http_method;
  path : string;
  body : json_body
}.

(** [request.get_json()]: None for a body that is not JSON, [BadRequest] for
    one that does not parse. *)
Definition get_json (r : request) : M pyval :=
  match body r with
  | NoJson => ret PyNone
  | Malformed => raise BadRequest
  | Json v => ret v
  end.

(** The body of a response: text a view returned, the stock page werkzeug
    writes for an error or redirect status, nothing, or the bytes of a
    file. *)
Inductive payload : Type :=
| Text (s : string)
| StockPage
| NoBody
| FileBytes (bs : bytes).

Record response : Type := Response {
  status : N;
  content : payload
}.

(** ** scikit-learn, joblib and the rest of what is not in the scripts *)

(** A [KNeighborsClassifier] object: its neighbour count and, once [fit] has
    run, what it learned. *)
Record classifier (fitted : Type) : Type := Classifier {
  n_neighbors : N;
  learned : option fitted
}.
Arguments Classifier {fitted} _ _.
Arguments n_neighbors {fitted} _.
Arguments learned {fitted} _.

(** The parts that are computed inside the libraries. [pickle_loads] stands
    for unpickling followed by the use as a classifier: bytes that do not
    hold one count as a failure. numpy prints an array of labels in ASCII, so
    what [ndarray_str] gives can be encoded. [isprintable] is the Unicode
    table of the interpreter. [redirect_code] is the status of werkzeug's
    redirect to a path with its slash, 301 up to 0.14 and 308 from 0.15.
    [send_static] is the view [Flask(__name__)] registers for
    /static/<path:filename>, together with the match of the rule: it is given
    the method, what follows /static/ and the files, which it can only
    read. *)
Class Library : Type := {
  ndarray : Type;
  fitted : Type;
  iris_data : lib_result (ndarray * ndarray);
  knn_fit : N -> ndarray -> ndarray -> lib_result fitted;
  knn_predict : N -> fitted -> pyval -> lib_result ndarray;
  ndarray_str : ndarray -> string;
  pickle_dumps : classifier fitted -> bytes;
  pickle_loads : bytes -> lib_result (classifier fitted);
  isprintable : N -> bool;
  redirect_code : N;
  send_static : http_method -> string -> gmap string bytes -> response;
  ndarray_str_encodable : forall a : ndarray, utf8_encodable (ndarray_str a) = true
}.

Section Service.
Context {L : Library}.

(** The [Bunch] of [load_iris()]: the feature rows and their labels. *)
Record Bunch : Type := { data : ndarray; target : ndarray }.

Definition load_iris : M Bunch :=
  _ ← emit LoadDataset;
  xy ← of_lib iris_data;
  mret {| data := fst xy; target := snd xy |}.

(** [KNeighborsClassifier(n_neighbors=5, ...)]: the count is 5 when the
    caller passes none. *)
Definition KNeighborsClassifier (neighbors : option N) : M (classifier fitted) :=
  let k := default 5%N neighbors in
  _ ← emit (Construct k);
  mret (Classifier k None).

Definition fit (knn : classifier fitted) (X y : ndarray) : M (classifier fitted) :=
  _ ← emit Fit;
  st ← of_lib (knn_fit (n_neighbors knn) X y);
  mret (Classifier (n_neighbors knn) (Some st)).

Definition predict (model : classifier fitted) (X : pyval) : M ndarray :=
  _ ← emit (Predict X);
  match learned model with
  | None => raise (LibraryError "NotFittedError")
  | Some st => of_lib (knn_predict (n_neighbors model) st X)
  end.

(** [joblib.dump(obj, path)]: the file at [path] becomes the pickle of
    [obj], whatever was there before. *)
Definition joblib_dump (obj : classifier fitted) (path : string) : M unit :=
  fun w => (Ok tt, {| files := <[path := pickle_dumps obj]> (files w);
                      trace := trace w ++ [Dump path] |}).

(** [joblib.load(path)]: opens the file, which must exist, and unpickles it. *)
Definition read_file (path : string) : M bytes :=
  fun w =>
    match files w !! path with
    | None => (Raise (FileNotFoundError path), w)
    | Some content => (Ok content, w)
    end.

Definition joblib_load (path : string) : M (classifier fitted) :=
  _ ← emit (Load path);
  content ← read_file path;
  of_lib (pickle_loads content).

(** ** app.py *)

Definition hello : M string :=
  ret "Hello World!".

Definition post_method (r : request) : M string :=
  json ← get_json r;
  name ← of_result (getitem json "name");
  age ← of_result (getitem json "age");
  of_result (format isprintable "Hello {}. You're {} years old." [name; age]).

Definition predict_iris (r : request) : M string :=
  json ← get_json r;
  X ← of_result (getitem json "X");
  model ← joblib_load "knn.pkl";
  labels ← predict model X;
  mret (ndarray_str labels).

(** ** Flask *)

(** The three [@app.route] lines: rule, declared methods, view. The rule
    that [Flask(__name__)] adds for static files is [send_static], see
    [dispatch]. *)
Definition url_map : list (string * list http_method * (request -> M string)) :=
  [ ("/", [GET], fun _ => hello);
    ("/do_post", [POST], post_method);
    ("/predict_iris", [POST], predict_iris) ].

Fixpoint find_rule (rules : list (string * list http_method * (request -> M string)))
    (p : string) : option (list http_method * (request -> M string)) :=
  match rules with
  | [] => None
  | (rule, methods, view) :: rest =>
      if String.eqb rule p then Some (methods, view) else find_rule rest p
  end.

Definition allows (methods : list http_method) (m : http_method) : bool :=
  existsb (http_method_eqb m) methods.

(** A view's return value is encoded as UTF-8 and becomes a 200 response;
    a text that cannot be encoded raises in Flask after the view has
    returned. An HTTP exception becomes the response of its status; any
    other exception is unhandled and becomes the stock 500 response. No view
    of app.py has a handler of its own and no error handler is registered. *)
Definition run_view (view : M string) (w : world) : response * world :=
  match view w with
  | (Ok s, w') =>
      if utf8_encodable s then (Response 200 (Text s), w')
      else (Response 500 StockPage, w')
  | (Raise BadRequest, w') => (Response 400 StockPage, w')
  | (Raise _, w') => (Response 500 StockPage, w')
  end.

Fixpoint lstrip_slashes (p : string) : string :=
  match p with
  | String "/" rest => lstrip_slashes rest
  | _ => p
  end.

(** The path the URL map is asked for: waitress and werkzeug leave an empty
    path empty and make any number of leading slashes one. *)
Definition path_info (p : string) : string :=
  match p with
  | EmptyString => EmptyString
  | _ => String "/" (lstrip_slashes p)
  end.

Fixpoint strip_prefix (prefix s : string) : option string :=
  match prefix with
  | EmptyString => Some s
  | String a prefix' =>
      match s with
      | String b s' => if Ascii.eqb a b then strip_prefix prefix' s' else None
      | EmptyString => None
      end
  end.

(** What follows /static/ in a path that starts with it. *)
Definition static_rest (p : string) : option string := strip_prefix "/static/" p.

(** One request through the URL map. An empty path is the root rule without
    its slash: the methods of that rule are redirected, the others are 405.
    A path under /static/ is the static rule's. Otherwise an unknown path is
    404; a declared method runs the view; HEAD runs a view that takes GET;
    OPTIONS is answered by Flask itself; any other method is 405. *)
Definition dispatch (r : request) (w : world) : response * world :=
  let p := path_info (path r) in
  match p with
  | EmptyString =>
      (Response (if allows [GET; HEAD; OPTIONS] (method r) then redirect_code else 405)
                StockPage, w)
  | _ =>
      match static_rest p with
      | Some rest => (send_static (method r) rest (files w), after w [ServeStatic rest])
      | None =>
          match find_rule url_map p with
          | None => (Response 404 StockPage, w)
          | Some (methods, view) =>
              if allows methods (method r) then run_view (view r) w
              else match method r with
                   | HEAD => if allows methods GET then run_view (view r) w
                             else (Response 405 StockPage, w)
                   | OPTIONS => (Response 200 NoBody, w)
                   | _ => (Response 405 StockPage, w)
                   end
          end
      end
  end.

(** No response to HEAD has a body. *)
Definition without_body (r : request) (rw : response * world) : response * world :=
  match method r with
  | HEAD => (Response (status (fst rw)) NoBody, snd rw)
  | _ => rw
  end.

(** One request through the application. *)
Definition app (r : request) (w : world) : response * world :=
  without_body r (dispatch r w).

(** The server answers requests one after the other. *)
Fixpoint serve (rs : list request) (w : world) : list response * world :=
  match rs with
  | [] => ([], w)
  | r :: rest =>
      let (resp, w') := app r w in
      let (resps, w'') := serve rest w' in
      (resp :: resps, w'')
  end.

(** ** iris_train.py *)

Definition iris_train : M unit :=
  iris ← load_iris;
  let X := data iris in
  let y := target iris in
  knn ← KNeighborsClassifier None;
  knn ← fit knn X y;
  joblib_dump knn "knn.pkl".

End Service.

(** ** Reading without writing *)

(** [w'] comes from [w] by steps none of which writes a file: the files are
    the same and the trace grew by events that are not writes. *)
Definition untouched (w w' : world) : Prop :=
  files w' = files w /\
  exists evs, trace w' = (trace w ++ evs)%list /\ forallb (fun e => negb (is_write e)) evs = true.

(** ** Counting the times the model file is opened *)

Definition is_load (e : event) : bool :=
  match e with
  | Load _ => true
  | _ => false
  end.

Definition loads (t : list event) : nat := length (List.filter is_load t).

(** The requests that reach [joblib.load]: a POST to /predict_iris, with
    any number of leading slashes, whose body is JSON with "X". *)
Definition opens_model (r : request) : bool :=
  match method r, body r with
  | POST, Json v =>
      String.eqb "/predict_iris" (path_info (path r))
      && match has_key v "X" with Some _ => true | None => false end
  | _, _ => false
  end.

(** ** What the specification means by a value as supplied *)

(** The text of a JSON scalar as the request body carries it: the characters
    of a string, the digits of an integer, and the literals true, false and
    null. A float keeps only its printed form here and containers have no
    single text, so they get none. *)
Definition supplied_text (v : pyval) : option string :=
  match v with
  | PyNone => Some "null"
  | PyBool true => Some "true"
  | PyBool false => Some "false"
  | PyInt n => Some (int_str n)
  | PyStr s => Some s
  | _ => None
  end.

(** ** A small library to run the scripts on *)

Module Toy.

(** Arrays are lists of integers. Fitting keeps the labels, predicting gives
    every row of [X] the first of them, and an [X] that is not a list of rows
    is refused. A pickle is the neighbour count followed, for a fitted
    object, by a marker and the labels, one byte each. Of the code points
    from 128 up those above 160 are printable, the soft hyphen apart. The
    static rule serves the file static/rest when it is there. *)
Definition byte_of (n : N) : Byte.byte := default Byte.x00 (Byte.of_N n).

Definition toy_predict (k : N) (labels : list Z) (X : pyval) : lib_result (list Z) :=
  match X with
  | PyList rows => Done (map (fun _ => hd 0%Z labels) rows)
  | _ => Failed "ValueError"
  end.

Definition toy_print (a : list Z) : string :=
  "[" ++ String.concat " " (map int_str a) ++ "]".

(** The printed array, which is ASCII and so passes the test. *)
Definition toy_str (a : list Z) : string :=
  let s := toy_print a in
  if utf8_encodable s then s else "[]".

Definition toy_printable (cp : N) : bool := (160 <? cp)%N && negb (cp =? 173)%N.

Definition toy_static (m : http_method) (rest : string) (fs : gmap string bytes) : response :=
  match m with
  | GET | HEAD =>
      match fs !! ("static/" ++ rest) with
      | Some bs => Response 200 (FileBytes bs)
      | None => Response 404 StockPage
      end
  | OPTIONS => Response 200 NoBody
  | _ => Response 405 StockPage
  end.

Definition toy_str_encodable (a : list Z) : utf8_encodable (toy_str a) = true.
Proof.
  unfold toy_str. destruct (utf8_encodable (toy_print a)) eqn:E; [exact E | reflexivity].
Qed.

Definition toy_dumps (c : classifier (list Z)) : bytes :=
  byte_of (n_neighbors c) ::
  match learned c with
  | None => []
  | Some labels => Byte.x01 :: map (fun y => byte_of (Z.to_N y)) labels
  end.

Definition toy_loads (b : bytes) : lib_result (classifier (list Z)) :=
  match b with
  | [] => Failed "EOFError"
  | [k] => Done (Classifier (Byte.to_N k) None)
  | k :: _ :: labels =>
      Done (Classifier (Byte.to_N k) (Some (map (fun y => Z.of_N (Byte.to_N y)) labels)))
  end.

Definition lib : Library := {|
  ndarray := list Z;
  fitted := list Z;
  iris_data := Done ([51; 35; 14; 2; 70; 32; 47; 14]%Z, [0; 1]%Z);
  knn_fit := fun _ _ y => Done y;
  knn_predict := toy_predict;
  ndarray_str := toy_str;
  pickle_dumps := toy_dumps;
  pickle_loads := toy_loads;
  isprintable := toy_printable;
  redirect_code := 308;
  send_static := toy_static;
  ndarray_str_encodable := toy_str_encodable
|}.

Definition empty_world : world := World ∅ [].

Definition trained_world : world := snd (@iris_train lib empty_world).

Definition post (p : string) (v : pyval) : request := Request POST p (Json v).

Definition ada : pyval := PyDict [("name", PyStr "Ada"); ("age", PyInt 30)].

(** A name that is one lone surrogate, U+D800. *)
Definition lone_surrogate : pyval :=
  PyDict [("name", PyStr (String (ascii_of_N 237) (String (ascii_of_N 160) (String (ascii_of_N 128) ""))));
          ("age", PyInt 1)].

Definition ada_true : pyval := PyDict [("name", PyStr "Ada"); ("age", PyBool true)].

Definition only_name : pyval := PyDict [("name", PyStr "Ada")].

Definition one_row : pyval :=
  PyDict [("X", PyList [PyList [PyFloat "5.1"; PyFloat "3.5"; PyFloat "1.4"; PyFloat "0.2"]])].

End Toy.

(** ** The small library gone wrong *)

Module Faulty.

(** The small library with a [fit] that refuses its input. *)
Definition no_fit : Library := {|
  ndarray := list Z;
  fitted := list Z;
  iris_data := Done ([51; 35; 14; 2; 70; 32; 47; 14]%Z, [0; 1]%Z);
  knn_fit := fun _ _ _ => Failed "ValueError";
  knn_predict := Toy.toy_predict;
  ndarray_str := Toy.toy_str;
  pickle_dumps := Toy.toy_dumps;
  pickle_loads := Toy.toy_loads;
  isprintable := Toy.toy_printable;
  redirect_code := 308;
  send_static := Toy.toy_static;
  ndarray_str_encodable := Toy.toy_str_encodable
|}.

(** A world that already has a model file, from an earlier training. *)
Definition old_model_world : world :=
  World {["knn.pkl" := [Byte.x05; Byte.x01; Byte.x02]]} [].

(** A world whose model file is empty, which no pickle is. *)
Definition empty_file_world : world :=
  World {["knn.pkl" := []]} [].

End Faulty.

(** ** Facts about the Python layer *)

Lemma getitem_has_key (v : pyval) (k : string) (x : pyval) :
  has_key v k = Some x -> getitem v k = Ok x.
Proof.
  destruct v; simpl; try discriminate.
  intros ->. reflexivity.
Qed.

(** A missing key, or a body that is not an object, raises a plain Python
    exception: never werkzeug's [BadRequest]. *)
Lemma getitem_no_key (v : pyval) (k : string) :
  has_key v k = None -> exists e, getitem v k = Raise e /\ e <> BadRequest.
Proof.
  destruct v; simpl; intros H;
    try (exists TypeError; split; [reflexivity | discriminate]).
  rewrite H. exists (KeyError k). split; [reflexivity | discriminate].
Qed.

Lemma format_greeting (printable : N -> bool) (name age : pyval) :
  format printable "Hello {}. You're {} years old." [name; age]
  = Ok ("Hello " ++ py_str printable name ++ ". You're "
        ++ py_str printable age ++ " years old.").
Proof. reflexivity. Qed.

Lemma py_str_of_str (printable : N -> bool) (s : string) :
  py_str printable (PyStr s) = s.
Proof. reflexivity. Qed.

Lemma py_str_of_int (printable : N -> bool) (n : Z) :
  py_str printable (PyInt n) = int_str n.
Proof. reflexivity. Qed.

(** *** Texts that can be encoded *)

(** ASCII in front changes nothing. *)
Lemma utf8_encodable_ascii_app (a s : string) :
  ascii_only a = true -> utf8_encodable (a ++ s) = utf8_encodable s.
Proof.
  induction a as [|c a IH]; intros Ha; [reflexivity |].
  cbn [ascii_only] in Ha. apply andb_true_iff in Ha as [Hc Ha].
  apply N.ltb_lt in Hc.
  change (String c a ++ s) with (String c (a ++ s)).
  cbn [utf8_encodable]. rewrite (IH Ha).
  destruct (a ++ s) as [|d rest]; [reflexivity |].
  replace (N_of_ascii c =? 237)%N with false by (symmetry; apply N.eqb_neq; lia).
  reflexivity.
Qed.

Lemma utf8_encodable_ascii (a : string) :
  ascii_only a = true -> utf8_encodable a = true.
Proof.
  induction a as [|c a IH]; intros Ha; [reflexivity |].
  cbn [ascii_only] in Ha. apply andb_true_iff in Ha as [Hc Ha].
  apply N.ltb_lt in Hc.
  cbn [utf8_encodable]. rewrite (IH Ha).
  destruct a as [|d rest]; [reflexivity |].
  replace (N_of_ascii c =? 237)%N with false by (symmetry; apply N.eqb_neq; lia).
  reflexivity.
Qed.

(** ASCII behind changes nothing either: a surrogate needs its second byte
    from 160 up. *)
Lemma utf8_encodable_app_ascii (s : string) (d : ascii) (a : string) :
  (N_of_ascii d <? 128)%N = true ->
  utf8_encodable (s ++ String d a) = utf8_encodable s && utf8_encodable (String d a).
Proof.
  intros Hd. apply N.ltb_lt in Hd.
  induction s as [|c s IH]; [reflexivity |].
  destruct s as [|e s'].
  - change (String c "" ++ String d a) with (String c (String d a)).
    change (utf8_encodable (String c (String d a)))
      with (negb ((N_of_ascii c =? 237)%N
                  && (160 <=? N_of_ascii d)%N && (N_of_ascii d <=? 191)%N)
            && utf8_encodable (String d a)).
    replace (160 <=? N_of_ascii d)%N with false by (symmetry; apply N.leb_gt; lia).
    destruct (N_of_ascii c =? 237)%N; reflexivity.
  - change (String c (String e s') ++ String d a)
      with (String c (String e s' ++ String d a)).
    change (utf8_encodable (String c (String e s' ++ String d a)))
      with (negb ((N_of_ascii c =? 237)%N
                  && (160 <=? N_of_ascii e)%N && (N_of_ascii e <=? 191)%N)
            && utf8_encodable (String e s' ++ String d a)).
    rewrite IH.
    change (utf8_encodable (String c (String e s')))
      with (negb ((N_of_ascii c =? 237)%N
                  && (160 <=? N_of_ascii e)%N && (N_of_ascii e <=? 191)%N)
            && utf8_encodable (String e s')).
    rewrite andb_assoc. reflexivity.
Qed.

Lemma ascii_only_app (a b : string) :
  ascii_only (a ++ b) = ascii_only a && ascii_only b.
Proof.
  induction a as [|c a IH]; [reflexivity |].
  change (String c a ++ b) with (String c (a ++ b)).
  cbn [ascii_only]. rewrite IH, andb_assoc. reflexivity.
Qed.

Lemma ascii_only_uint (d : Decimal.uint) :
  ascii_only (NilEmpty.string_of_uint d) = true.
Proof. induction d; cbn; assumption || reflexivity. Qed.

Lemma ascii_only_nilzero_uint (d : Decimal.uint) :
  ascii_only (NilZero.string_of_uint d) = true.
Proof.
  destruct d; [reflexivity | ..]; exact (ascii_only_uint _).
Qed.

Lemma ascii_only_int_str (n : Z) : ascii_only (int_str n) = true.
Proof.
  unfold int_str, NilZero.string_of_int.
  destruct (Z.to_int n) as [d | d].
  - apply ascii_only_nilzero_uint.
  - cbn [ascii_only]. apply ascii_only_nilzero_uint.
Qed.

(** The greeting of a str and an int can be encoded when the str can. *)
Lemma greeting_encodable (s : string) (n : Z) :
  utf8_encodable s = true ->
  utf8_encodable ("Hello " ++ s ++ ". You're " ++ int_str n ++ " years old.") = true.
Proof.
  intros Hs.
  rewrite (utf8_encodable_ascii_app "Hello " _ eq_refl).
  change (". You're " ++ int_str n ++ " years old.")
    with (String "." (" You're " ++ int_str n ++ " years old.")).
  rewrite (utf8_encodable_app_ascii s "." _ eq_refl), Hs.
  apply utf8_encodable_ascii.
  change (String "." (" You're " ++ int_str n ++ " years old."))
    with (". You're " ++ int_str n ++ " years old.").
  rewrite !ascii_only_app, ascii_only_int_str. reflexivity.
Qed.

Section Proofs.
Context {L : Library}.

(** ** Routing *)

Ltac route Hm Hp :=
  unfold app, dispatch, without_body; rewrite Hp, Hm; reflexivity.

Lemma app_root_info (r : request) (w : world) :
  method r = GET -> path_info (path r) = "/" -> app r w = run_view hello w.
Proof. intros Hm Hp. route Hm Hp. Qed.

Lemma app_do_post_info (r : request) (w : world) :
  method r = POST -> path_info (path r) = "/do_post" ->
  app r w = run_view (post_method r) w.
Proof. intros Hm Hp. route Hm Hp. Qed.

Lemma app_predict_iris_info (r : request) (w : world) :
  method r = POST -> path_info (path r) = "/predict_iris" ->
  app r w = run_view (predict_iris r) w.
Proof. intros Hm Hp. route Hm Hp. Qed.

Lemma app_root (r : request) (w : world) :
  method r = GET -> path r = "/" -> app r w = run_view hello w.
Proof. intros Hm Hp. apply app_root_info; [exact Hm | rewrite Hp; reflexivity]. Qed.

Lemma app_do_post (r : request) (w : world) :
  method r = POST -> path r = "/do_post" -> app r w = run_view (post_method r) w.
Proof. intros Hm Hp. apply app_do_post_info; [exact Hm | rewrite Hp; reflexivity]. Qed.

Lemma app_predict_iris (r : request) (w : world) :
  method r = POST -> path r = "/predict_iris" ->
  app r w = run_view (predict_iris r) w.
Proof. intros Hm Hp. apply app_predict_iris_info; [exact Hm | rewrite Hp; reflexivity]. Qed.

Lemma run_view_text (view : M string) (w w' : world) (s : string) :
  view w = (Ok s, w') ->
  run_view view w
  = (if utf8_encodable s then Response 200 (Text s) else Response 500 StockPage, w').
Proof. unfold run_view. intros ->. destruct (utf8_encodable s); reflexivity. Qed.

Lemma run_view_ok (view : M string) (w w' : world) (s : string) :
  view w = (Ok s, w') -> utf8_encodable s = true ->
  run_view view w = (Response 200 (Text s), w').
Proof. intros Hrun Hs. rewrite (run_view_text view w w' s Hrun), Hs. reflexivity. Qed.

Lemma run_view_unhandled (view : M string) (w w' : world) (e : exn) :
  view w = (Raise e, w') -> e <> BadRequest ->
  run_view view w = (Response 500 StockPage, w').
Proof.
  unfold run_view. intros -> Hne.
  destruct e; try reflexivity. contradiction.
Qed.

(** ** The views, step by step *)

Lemma bind_ok {A B} (c : M A) (k : A -> M B) (w w' : world) (a : A) :
  c w = (Ok a, w') -> (x ← c; k x) w = k a w'.
Proof. unfold mbind, M_bind, bind. intros ->. reflexivity. Qed.

Lemma bind_raise {A B} (c : M A) (k : A -> M B) (w w' : world) (e : exn) :
  c w = (Raise e, w') -> (x ← c; k x) w = (Raise e, w').
Proof. unfold mbind, M_bind, bind. intros ->. reflexivity. Qed.

Lemma get_json_parsed (r : request) (v : pyval) (w : world) :
  body r = Json v -> get_json r w = (Ok v, w).
Proof. unfold get_json. intros ->. reflexivity. Qed.

Lemma post_method_ok (r : request) (v name age : pyval) (w : world) :
  body r = Json v ->
  has_key v "name" = Some name ->
  has_key v "age" = Some age ->
  post_method r w
  = (Ok ("Hello " ++ py_str isprintable name ++ ". You're "
         ++ py_str isprintable age ++ " years old."), w).
Proof.
  intros Hb Hn Ha. unfold post_method.
  rewrite (bind_ok _ _ w w v (get_json_parsed r v w Hb)).
  rewrite (getitem_has_key _ _ _ Hn), (getitem_has_key _ _ _ Ha).
  cbv [mbind M_bind bind of_result]. rewrite format_greeting. reflexivity.
Qed.

Lemma post_method_missing (r : request) (v : pyval) (w : world) :
  body r = Json v ->
  has_key v "name" = None \/ has_key v "age" = None ->
  exists e, post_method r w = (Raise e, w) /\ e <> BadRequest.
Proof.
  intros Hb Hmiss. unfold post_method.
  rewrite (bind_ok _ _ w w v (get_json_parsed r v w Hb)).
  destruct (has_key v "name") as [name|] eqn:Hn.
  - destruct Hmiss as [Hmiss | Hmiss]; [discriminate |].
    rewrite (getitem_has_key _ _ _ Hn).
    destruct (getitem_no_key v "age" Hmiss) as (e & -> & Hne).
    exists e. split; [reflexivity | exact Hne].
  - destruct (getitem_no_key v "name" Hn) as (e & -> & Hne).
    exists e. split; [reflexivity | exact Hne].
Qed.

(** ** The echo handler *)

(** C1, as amended: for every JSON body that holds both "name" and "age",
    POST /do_post answers 200 with exactly
    "Hello {name}. You're {age} years old.", the two values rendered as
    Python's str() renders them and nothing else of the request in it,
    provided this text can be encoded as UTF-8; a text that cannot, one with
    a lone surrogate in it, is answered with the stock 500. The world is left
    as it was. A string that can be encoded is rendered verbatim and an
    integer in decimal. *)
Theorem echo_renders_name_and_age (r : request) (w : world) (v name age : pyval) :
  method r = POST -> path r = "/do_post" -> body r = Json v ->
  has_key v "name" = Some name ->
  has_key v "age" = Some age ->
  app r w
  = (if utf8_encodable ("Hello " ++ py_str isprintable name ++ ". You're "
                        ++ py_str isprintable age ++ " years old.")
     then Response 200
            (Text ("Hello " ++ py_str isprintable name ++ ". You're "
                   ++ py_str isprintable age ++ " years old."))
     else Response 500 StockPage, w)
  /\ (forall s n, name = PyStr s -> age = PyInt n ->
      utf8_encodable s = true ->
      fst (app r w)
      = Response 200 (Text ("Hello " ++ s ++ ". You're " ++ int_str n ++ " years old."))).
Proof.
  intros Hm Hp Hb Hn Ha.
  pose proof (run_view_text _ _ _ _ (post_method_ok r v name age w Hb Hn Ha)) as Hrun.
  rewrite <- (app_do_post r w Hm Hp) in Hrun.
  split; [exact Hrun |].
  intros s n -> -> Hs. rewrite Hrun.
  rewrite py_str_of_str, py_str_of_int, (greeting_encodable s n Hs). reflexivity.
Qed.

(** C2: for every JSON body in which "name" or "age" is absent (a body that
    is not an object has neither), POST /do_post answers with the stock
    response of an unhandled error, status 500, and never with a 200. *)
Theorem echo_missing_key_fails (r : request) (w : world) (v : pyval) :
  method r = POST -> path r = "/do_post" -> body r = Json v ->
  has_key v "name" = None \/ has_key v "age" = None ->
  app r w = (Response 500 StockPage, w) /\ status (fst (app r w)) <> 200%N.
Proof.
  intros Hm Hp Hb Hmiss.
  destruct (post_method_missing r v w Hb Hmiss) as (e & Hrun & Hne).
  assert (Happ : app r w = (Response 500 StockPage, w)).
  { rewrite (app_do_post r w Hm Hp). exact (run_view_unhandled _ _ _ _ Hrun Hne). }
  split; [exact Happ |]. rewrite Happ. discriminate.
Qed.

(** ** The root handler *)

(** C8: every GET / is answered 200 "Hello World!", whatever else the
    request carries and whatever the world holds, and the world is left as it
    was: the view reads no input and cannot fail. *)
Theorem root_says_hello (r : request) (w : world) :
  method r = GET -> path r = "/" ->
  app r w = (Response 200 (Text "Hello World!"), w).
Proof.
  intros Hm Hp. rewrite (app_root r w Hm Hp). reflexivity.
Qed.

(** ** The prediction handler *)

Lemma joblib_load_step (p : string) (w : world) :
  joblib_load p w
  = (match files w !! p with
     | None => Raise (FileNotFoundError p)
     | Some bs =>
         match pickle_loads bs with
         | Done model => Ok model
         | Failed what => Raise (LibraryError what)
         end
     end, after w [Load p]).
Proof.
  cbv [joblib_load mbind M_bind bind emit read_file after]. cbn [files trace].
  destruct (files w !! p) as [bs|]; [| reflexivity].
  destruct (pickle_loads bs); reflexivity.
Qed.

Lemma predict_step (model : classifier fitted) (X : pyval) (w : world) :
  predict model X w
  = (match learned model with
     | None => Raise (LibraryError "NotFittedError")
     | Some st =>
         match knn_predict (n_neighbors model) st X with
         | Done labels => Ok labels
         | Failed what => Raise (LibraryError what)
         end
     end, after w [Predict X]).
Proof.
  cbv [predict mbind M_bind bind emit after]. cbn [files trace].
  destruct (learned model) as [st|]; [| reflexivity].
  destruct (knn_predict (n_neighbors model) st X); reflexivity.
Qed.

Lemma after_after (w : world) (es es' : list event) :
  after (after w es) es' = after w (es ++ es').
Proof. unfold after. cbn [files trace]. rewrite <- app_assoc. reflexivity. Qed.

(** With "X" in the body the view is the load followed by the prediction. *)
Lemma predict_iris_with_X (r : request) (v X : pyval) (w : world) :
  body r = Json v -> has_key v "X" = Some X ->
  predict_iris r w
  = (model ← joblib_load "knn.pkl";
     labels ← predict model X;
     mret (ndarray_str labels)) w.
Proof.
  intros Hb HX. unfold predict_iris.
  rewrite (bind_ok _ _ w w v (get_json_parsed r v w Hb)).
  rewrite (getitem_has_key _ _ _ HX). reflexivity.
Qed.

Lemma predict_iris_without_X (r : request) (v : pyval) (w : world) :
  body r = Json v -> has_key v "X" = None ->
  exists e, predict_iris r w = (Raise e, w) /\ e <> BadRequest.
Proof.
  intros Hb HX. unfold predict_iris.
  rewrite (bind_ok _ _ w w v (get_json_parsed r v w Hb)).
  destruct (getitem_no_key v "X" HX) as (e & -> & Hne).
  exists e. split; [reflexivity | exact Hne].
Qed.

(** C3: for every POST /predict_iris whose JSON body holds "X", the call
    opens "knn.pkl" itself, whatever has happened before, and when the file
    as it is at that moment unpickles to a fitted classifier that accepts the
    value of "X", the answer is 200 with the printed label array; nothing is
    kept for the next request, the world after the call differs only by the
    two trace entries. *)
Theorem predict_iris_answers (r : request) (w : world) (v X : pyval) :
  method r = POST -> path r = "/predict_iris" -> body r = Json v ->
  has_key v "X" = Some X ->
  (exists evs, snd (app r w) = after w (Load "knn.pkl" :: evs))
  /\ (forall bs model st labels,
        files w !! "knn.pkl" = Some bs ->
        pickle_loads bs = Done model ->
        learned model = Some st ->
        knn_predict (n_neighbors model) st X = Done labels ->
        app r w = (Response 200 (Text (ndarray_str labels)),
                   after w [Load "knn.pkl"; Predict X])).
Proof.
  intros Hm Hp Hb HX.
  rewrite (app_predict_iris r w Hm Hp). unfold run_view.
  rewrite (predict_iris_with_X r v X w Hb HX).
  cbv [mbind M_bind bind mret M_ret ret]. rewrite joblib_load_step.
  split.
  - destruct (files w !! "knn.pkl") as [bs|]; [| exists []; reflexivity].
    destruct (pickle_loads bs) as [model|what]; [| exists []; reflexivity].
    rewrite predict_step, after_after.
    exists [Predict X].
    destruct (learned model) as [st|]; [| reflexivity].
    destruct (knn_predict (n_neighbors model) st X) as [labels|what];
      [| reflexivity].
    rewrite ndarray_str_encodable. reflexivity.
  - intros bs model st labels -> -> Hst Hpred.
    rewrite predict_step, after_after, Hst, Hpred, ndarray_str_encodable.
    reflexivity.
Qed.

(** C4: a POST /predict_iris whose body lacks "X", or that finds no
    "knn.pkl", or whose "X" the loaded classifier refuses, is answered with
    the stock response of an unhandled error, status 500: the view handles
    none of the three itself and writes no body of its own. *)
Theorem predict_iris_failures (r : request) (w : world) (v : pyval) :
  method r = POST -> path r = "/predict_iris" -> body r = Json v ->
  has_key v "X" = None
  \/ (exists X, has_key v "X" = Some X /\
      (files w !! "knn.pkl" = None
       \/ exists bs model st what,
            files w !! "knn.pkl" = Some bs /\
            pickle_loads bs = Done model /\
            learned model = Some st /\
            knn_predict (n_neighbors model) st X = Failed what)) ->
  fst (app r w) = Response 500 StockPage.
Proof.
  intros Hm Hp Hb Hfail.
  rewrite (app_predict_iris r w Hm Hp).
  destruct Hfail as [HX | (X & HX & Hfail)].
  - destruct (predict_iris_without_X r v w Hb HX) as (e & Hrun & Hne).
    rewrite (run_view_unhandled _ _ _ _ Hrun Hne). reflexivity.
  - unfold run_view. rewrite (predict_iris_with_X r v X w Hb HX).
    cbv [mbind M_bind bind mret M_ret ret]. rewrite joblib_load_step.
    destruct Hfail as [-> | (bs & model & st & what & -> & -> & Hst & Hpred)].
    + reflexivity.
    + rewrite predict_step, Hst, Hpred. reflexivity.
Qed.

(** C9: the lookup of "X" comes before the file is opened. For every body
    lacking "X" the call fails with the world exactly as it was, no attempt
    to open "knn.pkl" in the trace, and the answer is the same in any two
    worlds, so with and without the model file. *)
Theorem predict_iris_key_before_file (r : request) (v : pyval) (w1 w2 : world) :
  method r = POST -> path r = "/predict_iris" -> body r = Json v ->
  has_key v "X" = None ->
  app r w1 = (Response 500 StockPage, w1)
  /\ fst (app r w1) = fst (app r w2).
Proof.
  intros Hm Hp Hb HX.
  assert (H : forall w, app r w = (Response 500 StockPage, w)).
  { intros w. rewrite (app_predict_iris r w Hm Hp).
    destruct (predict_iris_without_X r v w Hb HX) as (e & Hrun & Hne).
    exact (run_view_unhandled _ _ _ _ Hrun Hne). }
  split; [apply H |]. rewrite (H w1), (H w2). reflexivity.
Qed.

(** ** No view writes *)

Lemma untouched_refl (w : world) : untouched w w.
Proof.
  split; [reflexivity |]. exists []. split; [| reflexivity].
  symmetry. apply app_nil_r.
Qed.

Lemma untouched_trans (w1 w2 w3 : world) :
  untouched w1 w2 -> untouched w2 w3 -> untouched w1 w3.
Proof.
  intros (Hf12 & es & Ht12 & Hes) (Hf23 & es' & Ht23 & Hes').
  split; [congruence |].
  exists (es ++ es')%list. split.
  - rewrite Ht23, Ht12. symmetry. apply app_assoc.
  - rewrite forallb_app, Hes, Hes'. reflexivity.
Qed.

Lemma untouched_after (w : world) (evs : list event) :
  forallb (fun e => negb (is_write e)) evs = true -> untouched w (after w evs).
Proof. intros H. split; [reflexivity |]. exists evs. split; [reflexivity | exact H]. Qed.

Lemma run_view_world (view : M string) (w : world) :
  snd (run_view view w) = snd (view w).
Proof.
  unfold run_view. destruct (view w) as [[s|e] w'].
  - destruct (utf8_encodable s); reflexivity.
  - destruct e; reflexivity.
Qed.

Lemma hello_world (w : world) : snd (hello w) = w.
Proof. reflexivity. Qed.

(** The echo view touches nothing, whatever the body. *)
Lemma post_method_world (r : request) (w : world) : snd (post_method r w) = w.
Proof.
  cbv [post_method mbind M_bind bind get_json of_result ret raise].
  destruct (body r) as [| |v]; try reflexivity.
  destruct (getitem v "name"); [| reflexivity].
  destruct (getitem v "age"); reflexivity.
Qed.

(** The prediction view at most opens the file and calls [predict]. *)
Lemma predict_iris_world (r : request) (w : world) :
  untouched w (snd (predict_iris r w)).
Proof.
  assert (Hgo : forall v, untouched w
            (snd ((X ← of_result (getitem v "X");
                   model ← joblib_load "knn.pkl";
                   labels ← predict model X;
                   mret (ndarray_str labels)) w))).
  { intros v. cbv [mbind M_bind bind of_result mret M_ret ret].
    destruct (getitem v "X") as [X|e]; [| apply untouched_refl].
    rewrite joblib_load_step.
    destruct (files w !! "knn.pkl") as [bs|];
      [| apply untouched_after; reflexivity].
    destruct (pickle_loads bs) as [model|what];
      [| apply untouched_after; reflexivity].
    rewrite predict_step, after_after.
    destruct (learned model) as [st|];
      [| apply untouched_after; reflexivity].
    destruct (knn_predict (n_neighbors model) st X);
      apply untouched_after; reflexivity. }
  unfold predict_iris, get_json.
  destruct (body r) as [| |v].
  - apply (Hgo PyNone).
  - apply untouched_refl.
  - apply (Hgo v).
Qed.

Lemma url_map_views (p : string) (methods : list http_method)
    (view : request -> M string) :
  find_rule url_map p = Some (methods, view) ->
  forall r w, untouched w (snd (run_view (view r) w)).
Proof.
  unfold url_map. cbn [find_rule].
  destruct (String.eqb "/" p); [intros [= <- <-] |].
  { intros r w. rewrite run_view_world, hello_world. apply untouched_refl. }
  destruct (String.eqb "/do_post" p); [intros [= <- <-] |].
  { intros r w. rewrite run_view_world, post_method_world. apply untouched_refl. }
  destruct (String.eqb "/predict_iris" p); [intros [= <- <-] | discriminate].
  intros r w. rewrite run_view_world. apply predict_iris_world.
Qed.

Lemma without_body_world (r : request) (rw : response * world) :
  snd (without_body r rw) = snd rw.
Proof. unfold without_body. destruct (method r); reflexivity. Qed.

Lemma dispatch_world (r : request) (w : world) : untouched w (snd (dispatch r w)).
Proof.
  unfold dispatch.
  destruct (path_info (path r)) as [|c p]; [apply untouched_refl |].
  destruct (static_rest (String c p)) as [rest|];
    [apply untouched_after; reflexivity |].
  destruct (find_rule url_map (String c p)) as [[methods view]|] eqn:Hrule;
    [| apply untouched_refl].
  pose proof (url_map_views _ _ _ Hrule r w) as Hview.
  destruct (allows methods (method r)); [exact Hview |].
  destruct (method r); try apply untouched_refl.
  destruct (allows methods GET); [exact Hview | apply untouched_refl].
Qed.

Lemma app_world (r : request) (w : world) : untouched w (snd (app r w)).
Proof.
  unfold app. rewrite without_body_world. apply dispatch_world.
Qed.

Lemma serve_cons (r : request) (rs : list request) (w : world) :
  snd (serve (r :: rs) w) = snd (serve rs (snd (app r w))).
Proof.
  cbn [serve]. destruct (app r w) as [resp w']. cbn [snd].
  destruct (serve rs w') as [resps w'']. reflexivity.
Qed.

Lemma serve_world (rs : list request) (w : world) :
  untouched w (snd (serve rs w)).
Proof.
  revert w. induction rs as [|r rs IH]; intros w.
  - apply untouched_refl.
  - rewrite serve_cons.
    exact (untouched_trans _ _ _ (app_world r w) (IH _)).
Qed.

(** Whether it succeeds or aborts, the trainer leaves the files as they were
    or with "knn.pkl" alone replaced. *)
Lemma iris_train_files (w : world) :
  files (snd (iris_train w)) = files w
  \/ exists bs, files (snd (iris_train w)) = <["knn.pkl" := bs]> (files w).
Proof.
  cbv [iris_train load_iris KNeighborsClassifier fit joblib_dump
       mbind M_bind bind mret M_ret emit default].
  destruct iris_data as [[X y]|what]; cbn [of_lib ret raise fst snd data target n_neighbors files trace];
    [| left; reflexivity].
  destruct (knn_fit 5 X y) as [st|what]; cbn [of_lib ret raise fst snd files trace];
    [| left; reflexivity].
  right. eexists. reflexivity.
Qed.

(** C10: however many requests the server answers, and whatever they are,
    the files afterwards are the files before and the trace has gained no
    write: no view writes or deletes "knn.pkl" or anything else, the
    prediction view only opens the model file for reading. The trainer is
    the one that writes, and "knn.pkl" is all it writes. *)
Theorem server_never_writes (rs : list request) (w : world) :
  untouched w (snd (serve rs w))
  /\ (files (snd (iris_train w)) = files w
      \/ exists bs, files (snd (iris_train w)) = <["knn.pkl" := bs]> (files w)).
Proof.
  split; [apply serve_world | apply iris_train_files].
Qed.

(** ** The trainer *)

Lemma iris_train_run (w : world) (X y : ndarray) (st : fitted) :
  iris_data = Done (X, y) ->
  knn_fit 5 X y = Done st ->
  iris_train w
  = (Ok tt,
     {| files := <["knn.pkl" := pickle_dumps (Classifier 5 (Some st))]> (files w);
        trace := trace w ++ [LoadDataset; Construct 5; Fit; Dump "knn.pkl"] |}).
Proof.
  intros Hdata Hfit.
  cbv [iris_train load_iris KNeighborsClassifier fit joblib_dump
       mbind M_bind bind mret M_ret emit default].
  rewrite Hdata. cbn [of_lib ret fst snd data target n_neighbors files trace].
  rewrite Hfit. cbn [of_lib ret fst snd data target n_neighbors files trace].
  rewrite <- !app_assoc. reflexivity.
Qed.

(** C5: the trainer takes nothing but the world it runs in and, when the
    dataset loads and the fit succeeds, does exactly this, in this order:
    load the dataset, construct the classifier with no argument (so with 5
    neighbours), fit it on the features and labels, dump the fitted object to
    "knn.pkl". Afterwards that file holds the new pickle whatever it held
    before, and every other file is as it was. *)
Theorem trainer_steps (w : world) (X y : ndarray) (st : fitted) :
  iris_data = Done (X, y) ->
  knn_fit 5 X y = Done st ->
  fst (iris_train w) = Ok tt
  /\ trace (snd (iris_train w))
     = (trace w ++ [LoadDataset; Construct 5; Fit; Dump "knn.pkl"])%list
  /\ files (snd (iris_train w)) !! "knn.pkl"
     = Some (pickle_dumps (Classifier 5 (Some st)))
  /\ (forall p : string, p <> "knn.pkl" ->
      files (snd (iris_train w)) !! p = files w !! p).
Proof.
  intros Hdata Hfit. rewrite (iris_train_run w X y st Hdata Hfit).
  cbn [fst snd files trace]. repeat split.
  - apply lookup_insert_eq.
  - intros p Hp. apply lookup_insert_ne. congruence.
Qed.

(** ** Trainer, then server *)

(** X15: once the trainer has run, the prediction handler unpickles exactly
    the bytes the trainer dumped for its fitted classifier, whatever
    "knn.pkl" held before, and hands it the request's "X" unchanged: the
    answer is what the unpickled object predicts, the stock 500 when the
    bytes do not unpickle or the object refuses. *)
Theorem server_unpickles_what_trainer_dumped (r : request) (w w2 : world)
    (v Xq : pyval) (X y : ndarray) (st : fitted) :
  iris_data = Done (X, y) ->
  knn_fit 5 X y = Done st ->
  method r = POST -> path r = "/predict_iris" -> body r = Json v ->
  has_key v "X" = Some Xq ->
  fst (app r (snd (iris_train w)))
  = match pickle_loads (pickle_dumps (Classifier 5 (Some st))) with
    | Failed _ => Response 500 StockPage
    | Done model =>
        match fst (predict model Xq w2) with
        | Ok labels => Response 200 (Text (ndarray_str labels))
        | Raise _ => Response 500 StockPage
        end
    end.
Proof.
  intros Hdata Hfit Hm Hp Hb HX.
  rewrite (iris_train_run w X y st Hdata Hfit). cbn [snd].
  rewrite (app_predict_iris r _ Hm Hp). unfold run_view.
  rewrite (predict_iris_with_X r v Xq _ Hb HX).
  cbv [mbind M_bind bind mret M_ret ret]. rewrite joblib_load_step.
  cbn [files]. rewrite lookup_insert_eq.
  destruct (pickle_loads (pickle_dumps (Classifier 5 (Some st)))) as [model|what];
    [| reflexivity].
  rewrite !predict_step. cbn [fst].
  destruct (learned model) as [st'|]; [| reflexivity].
  destruct (knn_predict (n_neighbors model) st' Xq) as [labels|what];
    [| reflexivity].
  rewrite ndarray_str_encodable. reflexivity.
Qed.

End Proofs.

(** ** The theorems at work on the small library *)

(** C1 as it is written fails at a boolean age: the body supplies [true] and
    the answer says [True]. *)
Lemma echo_boolean_age_not_verbatim :
  has_key Toy.ada_true "name" = Some (PyStr "Ada")
  /\ has_key Toy.ada_true "age" = Some (PyBool true)
  /\ supplied_text (PyStr "Ada") = Some "Ada"
  /\ supplied_text (PyBool true) = Some "true"
  /\ fst (@app Toy.lib (Toy.post "/do_post" Toy.ada_true) Toy.empty_world)
     = Response 200 (Text "Hello Ada. You're True years old.")
  /\ fst (@app Toy.lib (Toy.post "/do_post" Toy.ada_true) Toy.empty_world)
     <> Response 200 (Text ("Hello " ++ "Ada" ++ ". You're " ++ "true" ++ " years old.")).
Proof.
  repeat split. discriminate.
Qed.

(** The encoding step and the Unicode table at work: a lone surrogate as the
    name, and a list holding a no-break space. *)
Example echo_lone_surrogate :
  fst (@app Toy.lib (Toy.post "/do_post" Toy.lone_surrogate) Toy.empty_world)
  = Response 500 StockPage.
Proof. reflexivity. Qed.

Example echo_list_with_no_break_space :
  fst (@app Toy.lib
         (Toy.post "/do_post"
            (PyDict [("name", PyStr "x");
                     ("age", PyList [PyStr (String (ascii_of_N 194)
                                              (String (ascii_of_N 160) ""))])]))
         Toy.empty_world)
  = Response 200 (Text "Hello x. You're ['\xa0'] years old.").
Proof. reflexivity. Qed.

Lemma echo_renders_name_and_age_witness :
  fst (@app Toy.lib (Toy.post "/do_post" Toy.ada) Toy.empty_world)
  = Response 200 (Text "Hello Ada. You're 30 years old.").
Proof.
  exact (proj2 (@echo_renders_name_and_age Toy.lib (Toy.post "/do_post" Toy.ada)
                  Toy.empty_world Toy.ada (PyStr "Ada") (PyInt 30)
                  eq_refl eq_refl eq_refl eq_refl eq_refl)
               "Ada" 30%Z eq_refl eq_refl eq_refl).
Defined.

Lemma echo_missing_key_fails_witness :
  @app Toy.lib (Toy.post "/do_post" Toy.only_name) Toy.empty_world
  = (Response 500 StockPage, Toy.empty_world)
  /\ status (fst (@app Toy.lib (Toy.post "/do_post" Toy.only_name) Toy.empty_world))
     <> 200%N.
Proof.
  apply (@echo_missing_key_fails Toy.lib _ _ Toy.only_name);
    [reflexivity | reflexivity | reflexivity | right; reflexivity].
Defined.

Lemma root_says_hello_witness :
  @app Toy.lib (Request GET "/" NoJson) Toy.trained_world
  = (Response 200 (Text "Hello World!"), Toy.trained_world).
Proof.
  apply (@root_says_hello Toy.lib); reflexivity.
Defined.

Lemma predict_iris_answers_witness :
  @app Toy.lib (Toy.post "/predict_iris" Toy.one_row) Toy.trained_world
  = (Response 200 (Text "[0]"),
     after Toy.trained_world
       [Load "knn.pkl";
        Predict (PyList [PyList [PyFloat "5.1"; PyFloat "3.5"; PyFloat "1.4"; PyFloat "0.2"]])]).
Proof.
  refine (proj2 (@predict_iris_answers Toy.lib (Toy.post "/predict_iris" Toy.one_row)
                   Toy.trained_world Toy.one_row _ eq_refl eq_refl eq_refl eq_refl)
                (Toy.toy_dumps (Classifier 5 (Some [0; 1]%Z)))
                (Classifier 5 (Some [0; 1]%Z)) [0; 1]%Z [0]%Z _ _ _ _);
    vm_compute; reflexivity.
Defined.

Lemma predict_iris_failures_witness :
  fst (@app Toy.lib (Toy.post "/predict_iris" Toy.one_row) Toy.empty_world)
  = Response 500 StockPage.
Proof.
  apply (@predict_iris_failures Toy.lib _ _ Toy.one_row);
    [reflexivity | reflexivity | reflexivity |].
  right. eexists. split; [reflexivity |]. left. reflexivity.
Defined.

Lemma predict_iris_key_before_file_witness :
  @app Toy.lib (Toy.post "/predict_iris" Toy.ada) Toy.empty_world
  = (Response 500 StockPage, Toy.empty_world)
  /\ fst (@app Toy.lib (Toy.post "/predict_iris" Toy.ada) Toy.empty_world)
     = fst (@app Toy.lib (Toy.post "/predict_iris" Toy.ada) Toy.trained_world).
Proof.
  apply (@predict_iris_key_before_file Toy.lib _ Toy.ada); reflexivity.
Defined.

Lemma trainer_steps_witness :
  fst (@iris_train Toy.lib Toy.empty_world) = Ok tt
  /\ trace (snd (@iris_train Toy.lib Toy.empty_world))
     = [LoadDataset; Construct 5; Fit; Dump "knn.pkl"]
  /\ files (snd (@iris_train Toy.lib Toy.empty_world)) !! "knn.pkl"
     = Some (Toy.toy_dumps (Classifier 5 (Some [0; 1]%Z)))
  /\ (forall p : string, p <> "knn.pkl" ->
      files (snd (@iris_train Toy.lib Toy.empty_world)) !! p
      = files Toy.empty_world !! p).
Proof.
  apply (@trainer_steps Toy.lib Toy.empty_world
           [51; 35; 14; 2; 70; 32; 47; 14]%Z [0; 1]%Z [0; 1]%Z);
    reflexivity.
Defined.

Lemma server_unpickles_what_trainer_dumped_witness :
  fst (@app Toy.lib (Toy.post "/predict_iris" Toy.one_row)
         (snd (@iris_train Toy.lib Faulty.empty_file_world)))
  = Response 200 (Text "[0]").
Proof.
  apply (@server_unpickles_what_trainer_dumped Toy.lib
           (Toy.post "/predict_iris" Toy.one_row)
           Faulty.empty_file_world Toy.empty_world Toy.one_row
           (PyList [PyList [PyFloat "5.1"; PyFloat "3.5"; PyFloat "1.4"; PyFloat "0.2"]])
           [51; 35; 14; 2; 70; 32; 47; 14]%Z [0; 1]%Z [0; 1]%Z);
    reflexivity.
Defined.

(** ** Beyond the claims: routing, failure paths and how the two scripts
       compose *)

Section More.
Context {L : Library}.

(** *** Routing *)

Lemma find_rule_unknown (p : string) :
  p <> "/" -> p <> "/do_post" -> p <> "/predict_iris" ->
  find_rule url_map p = None.
Proof.
  intros H1 H2 H3. unfold url_map. cbn [find_rule].
  destruct (String.eqb_spec "/" p) as [E|_]; [congruence |].
  destruct (String.eqb_spec "/do_post" p) as [E|_]; [congruence |].
  destruct (String.eqb_spec "/predict_iris" p) as [E|_]; [congruence |].
  reflexivity.
Qed.

(** X1: a path that, with its leading slashes made one, is not empty, is
    none of the three rules and is not under /static/ is answered 404 and
    nothing is run: the world stays exactly as it was. The body is the stock
    page, and nothing for HEAD. *)
Theorem unknown_path_is_404 (r : request) (w : world) :
  path_info (path r) <> "" ->
  path_info (path r) <> "/" ->
  path_info (path r) <> "/do_post" ->
  path_info (path r) <> "/predict_iris" ->
  static_rest (path_info (path r)) = None ->
  app r w
  = (Response 404 (match method r with HEAD => NoBody | _ => StockPage end), w).
Proof.
  intros H0 H1 H2 H3 Hs. unfold app, dispatch.
  rewrite Hs, (find_rule_unknown _ H1 H2 H3).
  destruct (path_info (path r)) as [|c p]; [congruence |].
  unfold without_body. destruct (method r); reflexivity.
Qed.

(** X2: the two POST rules take no GET, HEAD, PUT, DELETE or PATCH, and
    the root rule takes no POST, PUT, DELETE or PATCH: such a request is
    answered 405 and the view is not run. The body is the stock page, and
    nothing for HEAD. *)
Theorem wrong_method_is_405 (r : request) (w : world) :
  (path_info (path r) = "/" /\ In (method r) [POST; PUT; DELETE; PATCH])
  \/ ((path_info (path r) = "/do_post" \/ path_info (path r) = "/predict_iris")
      /\ In (method r) [GET; HEAD; PUT; DELETE; PATCH]) ->
  app r w
  = (Response 405 (match method r with HEAD => NoBody | _ => StockPage end), w).
Proof.
  intros [[Hp Hm] | [[Hp | Hp] Hm]];
    unfold app, dispatch, without_body; rewrite Hp;
    destruct (method r); cbn in Hm; try reflexivity;
    exfalso; intuition discriminate.
Qed.

(** *** Bodies that are not JSON *)

(** X3: a POST to either JSON view whose body does not parse is answered
    400, and one whose body is not declared as JSON is answered 500
    ([get_json] gives None, which cannot be indexed); in both cases before
    anything else happens, the model file is not opened. *)
Theorem body_not_json_fails (r : request) (w : world) :
  method r = POST ->
  path r = "/do_post" \/ path r = "/predict_iris" ->
  body r = NoJson \/ body r = Malformed ->
  app r w
  = (Response (match body r with Malformed => 400 | _ => 500 end) StockPage, w).
Proof.
  intros Hm [Hp | Hp] [Hb | Hb].
  - rewrite (app_do_post r w Hm Hp), Hb.
    unfold run_view, post_method, get_json. rewrite Hb. reflexivity.
  - rewrite (app_do_post r w Hm Hp), Hb.
    unfold run_view, post_method, get_json. rewrite Hb. reflexivity.
  - rewrite (app_predict_iris r w Hm Hp), Hb.
    unfold run_view, predict_iris, get_json. rewrite Hb. reflexivity.
  - rewrite (app_predict_iris r w Hm Hp), Hb.
    unfold run_view, predict_iris, get_json. rewrite Hb. reflexivity.
Qed.

(** *** The echo handler, read backwards *)

Lemma post_method_not_json (r : request) (w : world) :
  (forall v, body r <> Json v) ->
  exists e, post_method r w = (Raise e, w).
Proof.
  intros Hb. unfold post_method, get_json.
  destruct (body r) as [| |v].
  - exists TypeError. reflexivity.
  - exists BadRequest. reflexivity.
  - destruct (Hb v). reflexivity.
Qed.

Lemma run_view_raise_status (view : M string) (w w' : world) (e : exn) :
  view w = (Raise e, w') -> status (fst (run_view view w)) <> 200%N.
Proof.
  unfold run_view. intros ->. destruct e; discriminate.
Qed.

(** X4: the echo handler answers 200 only to a JSON object that holds both
    "name" and "age" and whose greeting can be encoded, and then with that
    greeting: there is no other way to a 200 on /do_post. *)
Theorem echo_200_only_with_both_keys (r : request) (w : world) :
  method r = POST -> path r = "/do_post" ->
  status (fst (app r w)) = 200%N ->
  exists v name age,
    body r = Json v
    /\ has_key v "name" = Some name
    /\ has_key v "age" = Some age
    /\ utf8_encodable ("Hello " ++ py_str isprintable name ++ ". You're "
                       ++ py_str isprintable age ++ " years old.") = true
    /\ content (fst (app r w))
       = Text ("Hello " ++ py_str isprintable name ++ ". You're "
               ++ py_str isprintable age ++ " years old.").
Proof.
  intros Hm Hp. rewrite (app_do_post r w Hm Hp). intros Hst.
  destruct (body r) as [| |v] eqn:Hb.
  - destruct (post_method_not_json r w) as (e & He).
    { intros v. rewrite Hb. discriminate. }
    destruct (run_view_raise_status _ _ _ _ He Hst).
  - destruct (post_method_not_json r w) as (e & He).
    { intros v. rewrite Hb. discriminate. }
    destruct (run_view_raise_status _ _ _ _ He Hst).
  - destruct (has_key v "name") as [name|] eqn:Hn.
    + destruct (has_key v "age") as [age|] eqn:Ha.
      * exists v, name, age.
        pose proof (run_view_text _ _ _ _ (post_method_ok r v name age w Hb Hn Ha))
          as Hrun.
        rewrite Hrun in Hst |- *.
        destruct (utf8_encodable _) eqn:Henc; [| discriminate].
        repeat split; try assumption; reflexivity.
      * destruct (post_method_missing r v w Hb (or_intror Ha)) as (e & He & _).
        destruct (run_view_raise_status _ _ _ _ He Hst).
    + destruct (post_method_missing r v w Hb (or_introl Hn)) as (e & He & _).
      destruct (run_view_raise_status _ _ _ _ He Hst).
Qed.

(** X5: the answer of the echo handler is decided by what the body holds
    under "name" and under "age" and by nothing else: two JSON bodies that
    agree on these two keys get the same response, whatever else they hold
    and whatever the world is. *)
Theorem echo_depends_on_name_and_age (r1 r2 : request) (w1 w2 : world)
    (v1 v2 : pyval) :
  method r1 = POST -> path r1 = "/do_post" -> body r1 = Json v1 ->
  method r2 = POST -> path r2 = "/do_post" -> body r2 = Json v2 ->
  has_key v1 "name" = has_key v2 "name" ->
  has_key v1 "age" = has_key v2 "age" ->
  fst (app r1 w1) = fst (app r2 w2).
Proof.
  intros Hm1 Hp1 Hb1 Hm2 Hp2 Hb2 Hn Ha.
  rewrite (app_do_post r1 w1 Hm1 Hp1), (app_do_post r2 w2 Hm2 Hp2).
  destruct (has_key v2 "name") as [name|] eqn:Hn2.
  - destruct (has_key v2 "age") as [age|] eqn:Ha2.
    + rewrite (run_view_text _ _ _ _ (post_method_ok r1 v1 name age w1 Hb1 Hn Ha)).
      rewrite (run_view_text _ _ _ _ (post_method_ok r2 v2 name age w2 Hb2 Hn2 Ha2)).
      reflexivity.
    + destruct (post_method_missing r1 v1 w1 Hb1 (or_intror Ha)) as (e1 & He1 & Hne1).
      destruct (post_method_missing r2 v2 w2 Hb2 (or_intror Ha2)) as (e2 & He2 & Hne2).
      rewrite (run_view_unhandled _ _ _ _ He1 Hne1).
      rewrite (run_view_unhandled _ _ _ _ He2 Hne2). reflexivity.
  - destruct (post_method_missing r1 v1 w1 Hb1 (or_introl Hn)) as (e1 & He1 & Hne1).
    destruct (post_method_missing r2 v2 w2 Hb2 (or_introl Hn2)) as (e2 & He2 & Hne2).
    rewrite (run_view_unhandled _ _ _ _ He1 Hne1).
    rewrite (run_view_unhandled _ _ _ _ He2 Hne2). reflexivity.
Qed.

(** *** The prediction handler: a file that is no pickle, and the way to 200 *)

(** The whole run of the view once "X" is there, case by case. *)
Lemma predict_iris_run (r : request) (v X : pyval) (w : world) :
  body r = Json v -> has_key v "X" = Some X ->
  predict_iris r w
  = match files w !! "knn.pkl" with
    | None => (Raise (FileNotFoundError "knn.pkl"), after w [Load "knn.pkl"])
    | Some bs =>
        match pickle_loads bs with
        | Failed what => (Raise (LibraryError what), after w [Load "knn.pkl"])
        | Done model =>
            (match learned model with
             | None => Raise (LibraryError "NotFittedError")
             | Some st =>
                 match knn_predict (n_neighbors model) st X with
                 | Done labels => Ok (ndarray_str labels)
                 | Failed what => Raise (LibraryError what)
                 end
             end, after w [Load "knn.pkl"; Predict X])
        end
    end.
Proof.
  intros Hb HX. rewrite (predict_iris_with_X r v X w Hb HX).
  cbv [mbind M_bind bind mret M_ret ret]. rewrite joblib_load_step.
  destruct (files w !! "knn.pkl") as [bs|]; [| reflexivity].
  destruct (pickle_loads bs) as [model|what]; [| reflexivity].
  rewrite predict_step, after_after.
  destruct (learned model) as [st|]; [| reflexivity].
  destruct (knn_predict (n_neighbors model) st X); reflexivity.
Qed.

(** X6: when "knn.pkl" is there but does not unpickle, the prediction
    handler answers the stock 500 and [predict] is never called: the trace
    gains the one [Load] and nothing after it. *)
Theorem predict_iris_unreadable_file (r : request) (w : world) (v X : pyval)
    (bs : bytes) (what : string) :
  method r = POST -> path r = "/predict_iris" -> body r = Json v ->
  has_key v "X" = Some X ->
  files w !! "knn.pkl" = Some bs ->
  pickle_loads bs = Failed what ->
  app r w = (Response 500 StockPage, after w [Load "knn.pkl"]).
Proof.
  intros Hm Hp Hb HX Hfile Hload.
  rewrite (app_predict_iris r w Hm Hp). unfold run_view.
  rewrite (predict_iris_run r v X w Hb HX), Hfile, Hload. reflexivity.
Qed.

Lemma predict_iris_not_json (r : request) (w : world) :
  (forall v, body r <> Json v) ->
  exists e, predict_iris r w = (Raise e, w).
Proof.
  intros Hb. unfold predict_iris, get_json.
  destruct (body r) as [| |v].
  - exists TypeError. reflexivity.
  - exists BadRequest. reflexivity.
  - destruct (Hb v). reflexivity.
Qed.

(** X7: the prediction handler answers 200 only when the body is a JSON
    object with "X", "knn.pkl" exists, unpickles to a fitted classifier and
    that classifier accepts "X"; the text is then the printed labels and the
    world has gained the load and the prediction in its trace. *)
Theorem predict_iris_200_only_when (r : request) (w : world) :
  method r = POST -> path r = "/predict_iris" ->
  status (fst (app r w)) = 200%N ->
  exists v X bs model st labels,
    body r = Json v
    /\ has_key v "X" = Some X
    /\ files w !! "knn.pkl" = Some bs
    /\ pickle_loads bs = Done model
    /\ learned model = Some st
    /\ knn_predict (n_neighbors model) st X = Done labels
    /\ app r w = (Response 200 (Text (ndarray_str labels)),
                  after w [Load "knn.pkl"; Predict X]).
Proof.
  intros Hm Hp. rewrite (app_predict_iris r w Hm Hp). intros Hst.
  destruct (body r) as [| |v] eqn:Hb.
  - destruct (predict_iris_not_json r w) as (e & He).
    { intros v. rewrite Hb. discriminate. }
    destruct (run_view_raise_status _ _ _ _ He Hst).
  - destruct (predict_iris_not_json r w) as (e & He).
    { intros v. rewrite Hb. discriminate. }
    destruct (run_view_raise_status _ _ _ _ He Hst).
  - destruct (has_key v "X") as [X|] eqn:HX.
    + pose proof (predict_iris_run r v X w Hb HX) as Hrun.
      destruct (files w !! "knn.pkl") as [bs|] eqn:Hfile;
        [| destruct (run_view_raise_status _ _ _ _ Hrun Hst)].
      destruct (pickle_loads bs) as [model|what] eqn:Hload;
        [| destruct (run_view_raise_status _ _ _ _ Hrun Hst)].
      destruct (learned model) as [st|] eqn:Hfit;
        [| destruct (run_view_raise_status _ _ _ _ Hrun Hst)].
      destruct (knn_predict (n_neighbors model) st X) as [labels|what] eqn:Hpred;
        [| destruct (run_view_raise_status _ _ _ _ Hrun Hst)].
      exists v, X, bs, model, st, labels. repeat split; try assumption; try reflexivity.
      exact (run_view_ok _ _ _ _ Hrun (ndarray_str_encodable labels)).
    + destruct (predict_iris_without_X r v w Hb HX) as (e & He & _).
      destruct (run_view_raise_status _ _ _ _ He Hst).
Qed.

(** *** What a response depends on *)

Lemma run_view_response (view1 view2 : M string) (w1 w2 : world) :
  fst (view1 w1) = fst (view2 w2) ->
  fst (run_view view1 w1) = fst (run_view view2 w2).
Proof.
  unfold run_view.
  destruct (view1 w1) as [[s1|e1] w1'], (view2 w2) as [[s2|e2] w2'];
    cbn [fst]; intros [=]; subst.
  - destruct (utf8_encodable s2); reflexivity.
  - destruct e2; reflexivity.
Qed.

Lemma post_method_result (r : request) (w1 w2 : world) :
  fst (post_method r w1) = fst (post_method r w2).
Proof.
  cbv [post_method mbind M_bind bind get_json of_result ret raise].
  destruct (body r) as [| |v]; try reflexivity.
  destruct (getitem v "name"); [| reflexivity].
  destruct (getitem v "age"); reflexivity.
Qed.

Lemma predict_iris_result (r : request) (w1 w2 : world) :
  files w1 !! "knn.pkl" = files w2 !! "knn.pkl" ->
  fst (predict_iris r w1) = fst (predict_iris r w2).
Proof.
  intros Hfile.
  destruct (body r) as [| |v] eqn:Hb.
  - unfold predict_iris, get_json. rewrite Hb. reflexivity.
  - unfold predict_iris, get_json. rewrite Hb. reflexivity.
  - destruct (has_key v "X") as [X|] eqn:HX.
    + rewrite !(predict_iris_run r v X _ Hb HX), Hfile.
      destruct (files w2 !! "knn.pkl") as [bs|]; [| reflexivity].
      destruct (pickle_loads bs); reflexivity.
    + destruct (getitem_no_key v "X" HX) as (e & Hget & _).
      unfold predict_iris.
      rewrite (bind_ok _ _ w1 w1 v (get_json_parsed r v w1 Hb)).
      rewrite (bind_ok _ _ w2 w2 v (get_json_parsed r v w2 Hb)).
      rewrite Hget. reflexivity.
Qed.

Lemma url_map_responses (p : string) (methods : list http_method)
    (view : request -> M string) :
  find_rule url_map p = Some (methods, view) ->
  forall r w1 w2,
    files w1 !! "knn.pkl" = files w2 !! "knn.pkl" ->
    fst (run_view (view r) w1) = fst (run_view (view r) w2).
Proof.
  unfold url_map. cbn [find_rule].
  destruct (String.eqb "/" p); [intros [= <- <-] |].
  { intros r w1 w2 _. reflexivity. }
  destruct (String.eqb "/do_post" p); [intros [= <- <-] |].
  { intros r w1 w2 _. apply run_view_response, post_method_result. }
  destruct (String.eqb "/predict_iris" p); [intros [= <- <-] | discriminate].
  intros r w1 w2 Hfile. apply run_view_response, predict_iris_result, Hfile.
Qed.

(** The static rule reads what it likes of the files; every other rule
    reads "knn.pkl" at most. *)
Lemma dispatch_response (r : request) (w1 w2 : world) :
  match static_rest (path_info (path r)) with
  | Some _ => files w1 = files w2
  | None => files w1 !! "knn.pkl" = files w2 !! "knn.pkl"
  end ->
  fst (dispatch r w1) = fst (dispatch r w2).
Proof.
  unfold dispatch.
  destruct (path_info (path r)) as [|c p]; [reflexivity |].
  destruct (static_rest (String c p)) as [rest|].
  { intros ->. reflexivity. }
  intros Hfile.
  destruct (find_rule url_map (String c p)) as [[methods view]|] eqn:Hrule;
    [| reflexivity].
  pose proof (url_map_responses _ _ _ Hrule r w1 w2 Hfile) as Hview.
  destruct (allows methods (method r)); [exact Hview |].
  destruct (method r); try reflexivity.
  destruct (allows methods GET); [exact Hview | reflexivity].
Qed.

Lemma without_body_response (r : request) (rw1 rw2 : response * world) :
  fst rw1 = fst rw2 -> fst (without_body r rw1) = fst (without_body r rw2).
Proof.
  unfold without_body. intros H. destruct (method r); cbn [fst]; rewrite ?H; reflexivity.
Qed.

Lemma app_response_files (r : request) (w1 w2 : world) :
  files w1 = files w2 -> fst (app r w1) = fst (app r w2).
Proof.
  intros Hfiles. unfold app. apply without_body_response, dispatch_response.
  destruct (static_rest (path_info (path r))); [exact Hfiles |].
  rewrite Hfiles. reflexivity.
Qed.

Lemma app_response_model_file (r : request) (w1 w2 : world) :
  static_rest (path_info (path r)) = None ->
  files w1 !! "knn.pkl" = files w2 !! "knn.pkl" ->
  fst (app r w1) = fst (app r w2).
Proof.
  intros Hs Hfile. unfold app. apply without_body_response, dispatch_response.
  rewrite Hs. exact Hfile.
Qed.

(** What a request does to the world, by the rule it falls under. *)
Lemma app_world_cases (r : request) (w : world) :
  match static_rest (path_info (path r)) with
  | Some rest => snd (app r w) = after w [ServeStatic rest]
  | None =>
      snd (app r w) = w
      \/ (method r = POST /\ path_info (path r) = "/predict_iris"
          /\ exists v X evs,
               body r = Json v /\ has_key v "X" = Some X
               /\ snd (app r w) = after w (Load "knn.pkl" :: evs))
  end.
Proof.
  unfold app. rewrite without_body_world. unfold dispatch.
  destruct (path_info (path r)) as [|c p] eqn:Hinfo; [left; reflexivity |].
  destruct (static_rest (String c p)) as [rest|]; [reflexivity |].
  unfold url_map. cbn [find_rule].
  destruct (String.eqb "/" (String c p)).
  { destruct (method r); cbn; left; reflexivity. }
  destruct (String.eqb "/do_post" (String c p)).
  { destruct (method r); cbn; left; try reflexivity.
    rewrite run_view_world. apply post_method_world. }
  destruct (String.eqb_spec "/predict_iris" (String c p)) as [Hp|_];
    [| left; reflexivity].
  destruct (method r) eqn:Hm; cbn; try (left; reflexivity).
  rewrite run_view_world.
  destruct (body r) as [| |v] eqn:Hb.
  - left. unfold predict_iris, get_json. rewrite Hb. reflexivity.
  - left. unfold predict_iris, get_json. rewrite Hb. reflexivity.
  - destruct (has_key v "X") as [X|] eqn:HX.
    + right. split; [reflexivity |]. split; [symmetry; exact Hp |].
      rewrite (predict_iris_run r v X w Hb HX).
      destruct (files w !! "knn.pkl") as [bs|];
        [| exists v, X, []; auto].
      destruct (pickle_loads bs) as [model|what];
        [| exists v, X, []; auto].
      exists v, X, [Predict X]. auto.
    + left. destruct (predict_iris_without_X r v w Hb HX) as (e & -> & _).
      reflexivity.
Qed.

Lemma opens_model_inv (r : request) :
  opens_model r = true ->
  method r = POST /\ path_info (path r) = "/predict_iris"
  /\ exists v X, body r = Json v /\ has_key v "X" = Some X.
Proof.
  unfold opens_model.
  destruct (method r); try discriminate.
  destruct (body r) as [| |v]; try discriminate.
  intros H. apply andb_true_iff in H as [Hp HX].
  apply String.eqb_eq in Hp.
  destruct (has_key v "X") as [X|] eqn:HkX; [| discriminate].
  split; [reflexivity |]. split; [symmetry; exact Hp |].
  exists v, X. split; [reflexivity | exact HkX].
Qed.

(** X9: the only request that reaches [joblib.load] is a POST /predict_iris
    with "X" in its JSON body, and what it does starts with opening
    "knn.pkl". A request under /static/ goes to Flask's static rule and to
    nothing else. Every other request leaves the world exactly as it was,
    trace included. *)
Theorem only_predict_iris_opens_file (r : request) (w : world) :
  if opens_model r
  then exists evs, snd (app r w) = after w (Load "knn.pkl" :: evs)
  else match static_rest (path_info (path r)) with
       | Some rest => snd (app r w) = after w [ServeStatic rest]
       | None => snd (app r w) = w
       end.
Proof.
  pose proof (app_world_cases r w) as Hcases.
  destruct (opens_model r) eqn:Hopens.
  - destruct (opens_model_inv r Hopens) as (Hm & Hp & v & X & Hb & HX).
    rewrite (app_predict_iris_info r w Hm Hp), run_view_world.
    rewrite (predict_iris_run r v X w Hb HX).
    destruct (files w !! "knn.pkl") as [bs|]; [| exists []; reflexivity].
    destruct (pickle_loads bs) as [model|what];
      [exists [Predict X] | exists []]; reflexivity.
  - destruct (static_rest (path_info (path r))) as [rest|]; [exact Hcases |].
    destruct Hcases as [Hsame | (Hm & Hp & v & X & evs & Hb & HX & _)];
      [exact Hsame |].
    unfold opens_model in Hopens.
    rewrite Hm, Hb, Hp, HX in Hopens. discriminate.
Qed.

(** *** Requests one after the other *)

(** A run that starts with the files of [w0] answers every request as [w0]
    would. *)
Lemma serve_responses_from (rs : list request) (w0 w : world) :
  files w = files w0 ->
  fst (serve rs w) = map (fun r => fst (app r w0)) rs.
Proof.
  revert w. induction rs as [|r rs IH]; intros w Hfiles; [reflexivity |].
  cbn [serve map].
  destruct (app r w) as [resp w'] eqn:Happ.
  destruct (serve rs w') as [resps w''] eqn:Hserve.
  cbn [fst]. f_equal.
  - change resp with (fst (resp, w')). rewrite <- Happ.
    apply app_response_files. exact Hfiles.
  - change resps with (fst (resps, w'')). rewrite <- Hserve.
    apply IH.
    destruct (app_world r w) as [Hsame _]. rewrite Happ in Hsame.
    cbn [snd] in Hsame. congruence.
Qed.

(** X10: the requests of a run do not influence one another. Each is
    answered as it would be were it the first: a request that failed, or a
    prediction that was served, changes nothing for those that follow. *)
Theorem serve_answers_independently (rs : list request) (w : world) :
  fst (serve rs w) = map (fun r => fst (app r w)) rs.
Proof.
  apply serve_responses_from. reflexivity.
Qed.

(** X8: leaving aside what goes to the static rule, the responses of a run
    depend on the world it starts in only through the content of "knn.pkl":
    what happened before, recorded in the trace, and every other file have
    no influence on any of them. *)
Theorem responses_depend_on_model_file (rs : list request) (w1 w2 : world) :
  Forall (fun r => static_rest (path_info (path r)) = None) rs ->
  files w1 !! "knn.pkl" = files w2 !! "knn.pkl" ->
  fst (serve rs w1) = fst (serve rs w2).
Proof.
  intros Hrs Hfile.
  rewrite (serve_responses_from rs w1 w1 eq_refl).
  rewrite (serve_responses_from rs w2 w2 eq_refl).
  induction Hrs as [|r rs Hr _ IH]; [reflexivity |].
  cbn [map]. rewrite IH, (app_response_model_file r w1 w2 Hr Hfile). reflexivity.
Qed.

(** *** The trainer when it fails, and the server around it *)

(** X11: a trainer that aborts has written nothing. Whether the dataset
    does not load or the fit refuses, the exception comes from the library,
    [joblib.dump] has not been reached, and a "knn.pkl" from an earlier run
    is still there untouched. *)
Theorem failed_training_keeps_files (w : world) (e : exn) :
  fst (iris_train w) = Raise e ->
  untouched w (snd (iris_train w)) /\ exists what, e = LibraryError what.
Proof.
  cbv [iris_train load_iris KNeighborsClassifier fit joblib_dump
       mbind M_bind bind mret M_ret emit default].
  destruct iris_data as [[X y]|what];
    cbn [of_lib ret raise fst snd data target n_neighbors files trace].
  - destruct (knn_fit 5 X y) as [st|what];
      cbn [of_lib ret raise fst snd files trace]; intros [= <-].
    split; [| exists what; reflexivity].
    split; [reflexivity |].
    exists [LoadDataset; Construct 5; Fit]. split; [| reflexivity].
    rewrite <- !app_assoc. reflexivity.
  - intros [= <-]. split; [| exists what; reflexivity].
    split; [reflexivity |].
    exists [LoadDataset]. split; reflexivity.
Qed.

Lemma iris_train_files_from (w1 w2 : world) :
  files w1 = files w2 ->
  files (snd (iris_train w1)) = files (snd (iris_train w2)).
Proof.
  intros Hfiles.
  cbv [iris_train load_iris KNeighborsClassifier fit joblib_dump
       mbind M_bind bind mret M_ret emit default].
  destruct iris_data as [[X y]|what];
    cbn [of_lib ret raise fst snd data target n_neighbors files trace];
    [| exact Hfiles].
  destruct (knn_fit 5 X y) as [st|what];
    cbn [of_lib ret raise fst snd files trace]; [| exact Hfiles].
  rewrite Hfiles. reflexivity.
Qed.

(** X12: what the server answered before a training run plays no part in
    what it answers after it. The requests served after the trainer has run
    get the same responses whether or not, and whatever, the server served
    before: no view keeps the model it loaded. *)
Theorem serving_before_training_is_forgotten (before later : list request)
    (w : world) :
  fst (serve later (snd (iris_train (snd (serve before w)))))
  = fst (serve later (snd (iris_train w))).
Proof.
  rewrite (serve_responses_from later (snd (iris_train w))
             (snd (iris_train (snd (serve before w))))).
  - symmetry. apply serve_responses_from. reflexivity.
  - apply iris_train_files_from.
    exact (proj1 (serve_world before w)).
Qed.

(** *** One load for each prediction *)

Lemma loads_app (t t' : list event) : loads (t ++ t') = loads t + loads t'.
Proof. unfold loads. rewrite List.filter_app, List.length_app. reflexivity. Qed.

Lemma app_loads (r : request) (w : world) :
  loads (trace (snd (app r w)))
  = loads (trace w) + (if opens_model r then 1 else 0).
Proof.
  pose proof (app_world_cases r w) as Hcases.
  destruct (opens_model r) eqn:Hopens.
  - destruct (opens_model_inv r Hopens) as (Hm & Hp & v & X & Hb & HX).
    rewrite (app_predict_iris_info r w Hm Hp), run_view_world.
    rewrite (predict_iris_run r v X w Hb HX).
    destruct (files w !! "knn.pkl") as [bs|];
      [| cbn [snd after trace]; rewrite loads_app; reflexivity].
    destruct (pickle_loads bs) as [model|what];
      cbn [snd after trace]; rewrite loads_app; reflexivity.
  - destruct (static_rest (path_info (path r))) as [rest|].
    + rewrite Hcases. cbn [after trace]. rewrite loads_app. reflexivity.
    + destruct Hcases as [-> | (Hm & Hp & v & X & evs & Hb & HX & _)]; [lia |].
      unfold opens_model in Hopens.
      rewrite Hm, Hb, Hp, HX in Hopens. discriminate.
Qed.

(** X14: over a whole run the model file is opened exactly once for each
    POST /predict_iris, with any number of leading slashes, that has "X" in
    its JSON body, and never for any other request: no prediction is
    answered from a model loaded earlier, and no request opens the file
    twice. *)
Theorem serve_loads_once_per_prediction (rs : list request) (w : world) :
  loads (trace (snd (serve rs w)))
  = loads (trace w) + length (List.filter opens_model rs).
Proof.
  revert w. induction rs as [|r rs IH]; intros w.
  - cbn. lia.
  - rewrite serve_cons, IH, app_loads. cbn [List.filter].
    destruct (opens_model r); cbn [length]; lia.
Qed.

(** *** Error responses *)

Lemma run_view_shape (view : M string) (w : world) :
  (exists s, fst (run_view view w) = Response 200 (Text s))
  \/ fst (run_view view w) = Response 400 StockPage
  \/ fst (run_view view w) = Response 500 StockPage.
Proof.
  unfold run_view. destruct (view w) as [[s|e] w'].
  - destruct (utf8_encodable s); [left; exists s; reflexivity | auto].
  - right. destruct e; auto.
Qed.

(** What the URL map gives before the body of a HEAD response is dropped:
    text with 200 only, and the stock page with anything else. *)
Lemma dispatch_shape (r : request) (w : world) :
  static_rest (path_info (path r)) = None ->
  (forall s, content (fst (dispatch r w)) = Text s ->
             status (fst (dispatch r w)) = 200%N)
  /\ (status (fst (dispatch r w)) <> 200%N ->
      content (fst (dispatch r w)) = StockPage).
Proof.
  assert (Hview : forall view : M string,
            (forall s, content (fst (run_view view w)) = Text s ->
                       status (fst (run_view view w)) = 200%N)
            /\ (status (fst (run_view view w)) <> 200%N ->
                content (fst (run_view view w)) = StockPage)).
  { intros view.
    destruct (run_view_shape view w) as [(s & ->) | [-> | ->]]; cbn;
      split; intros; try reflexivity; try discriminate; congruence. }
  unfold dispatch.
  destruct (path_info (path r)) as [|c p].
  { intros _. cbn. split; intros; [discriminate | reflexivity]. }
  intros ->.
  destruct (find_rule url_map (String c p)) as [[methods view]|];
    [| cbn; split; intros; [discriminate | reflexivity]].
  destruct (allows methods (method r)); [apply Hview |].
  destruct (method r); try (cbn; split; intros; [discriminate | reflexivity]).
  - destruct (allows methods GET); [apply Hview |].
    cbn; split; intros; [discriminate | reflexivity].
  - cbn. split; intros; [discriminate | congruence].
Qed.

(** X13: outside the static rule, no error response carries text of the
    application. Text from a view is only ever sent with status 200, and a
    response whose status is not 200 has the stock page of its status as its
    body, or no body when the request is a HEAD. *)
Theorem errors_carry_stock_page (r : request) (w : world) :
  static_rest (path_info (path r)) = None ->
  (forall s, content (fst (app r w)) = Text s -> status (fst (app r w)) = 200%N)
  /\ (status (fst (app r w)) <> 200%N ->
      content (fst (app r w))
      = match method r with HEAD => NoBody | _ => StockPage end).
Proof.
  intros Hs. destruct (dispatch_shape r w Hs) as [Htext Hpage].
  unfold app, without_body.
  destruct (method r); cbn [fst status content];
    split; try assumption; intros; try discriminate; reflexivity.
Qed.

End More.

(** *** The same on the small libraries *)

Lemma unknown_path_is_404_witness :
  @app Toy.lib (Request HEAD "/predict" NoJson) Toy.trained_world
  = (Response 404 NoBody, Toy.trained_world).
Proof.
  apply (@unknown_path_is_404 Toy.lib (Request HEAD "/predict" NoJson));
    discriminate || reflexivity.
Defined.

Lemma wrong_method_is_405_witness :
  @app Toy.lib (Request HEAD "//predict_iris" (Json Toy.one_row)) Toy.trained_world
  = (Response 405 NoBody, Toy.trained_world).
Proof.
  apply (@wrong_method_is_405 Toy.lib
           (Request HEAD "//predict_iris" (Json Toy.one_row))).
  right. split; [right; reflexivity | right; left; reflexivity].
Defined.

Lemma body_not_json_fails_witness :
  @app Toy.lib (Request POST "/do_post" Malformed) Toy.empty_world
  = (Response 400 StockPage, Toy.empty_world).
Proof.
  apply (@body_not_json_fails Toy.lib (Request POST "/do_post" Malformed));
    [reflexivity | left; reflexivity | right; reflexivity].
Defined.

Lemma echo_200_only_with_both_keys_witness :
  exists v name age,
    body (Toy.post "/do_post" Toy.ada) = Json v
    /\ has_key v "name" = Some name
    /\ has_key v "age" = Some age
    /\ utf8_encodable ("Hello " ++ py_str Toy.toy_printable name ++ ". You're "
                       ++ py_str Toy.toy_printable age ++ " years old.") = true
    /\ content (fst (@app Toy.lib (Toy.post "/do_post" Toy.ada) Toy.empty_world))
       = Text ("Hello " ++ py_str Toy.toy_printable name ++ ". You're "
               ++ py_str Toy.toy_printable age ++ " years old.").
Proof.
  apply (@echo_200_only_with_both_keys Toy.lib); reflexivity.
Defined.

Lemma echo_depends_on_name_and_age_witness :
  fst (@app Toy.lib (Toy.post "/do_post" Toy.ada) Toy.empty_world)
  = fst (@app Toy.lib
           (Toy.post "/do_post"
              (PyDict [("city", PyStr "Turin"); ("age", PyInt 30); ("name", PyStr "Ada")]))
           Toy.trained_world).
Proof.
  apply (@echo_depends_on_name_and_age Toy.lib _ _ _ _ Toy.ada
           (PyDict [("city", PyStr "Turin"); ("age", PyInt 30); ("name", PyStr "Ada")]));
    reflexivity.
Defined.

Lemma predict_iris_unreadable_file_witness :
  @app Toy.lib (Toy.post "/predict_iris" Toy.one_row) Faulty.empty_file_world
  = (Response 500 StockPage, after Faulty.empty_file_world [Load "knn.pkl"]).
Proof.
  apply (@predict_iris_unreadable_file Toy.lib _ _ Toy.one_row
           (PyList [PyList [PyFloat "5.1"; PyFloat "3.5"; PyFloat "1.4"; PyFloat "0.2"]])
           [] "EOFError");
    reflexivity.
Defined.

Lemma predict_iris_200_only_when_witness :
  exists v X bs model st labels,
    body (Toy.post "/predict_iris" Toy.one_row) = Json v
    /\ has_key v "X" = Some X
    /\ files Toy.trained_world !! "knn.pkl" = Some bs
    /\ @pickle_loads Toy.lib bs = Done model
    /\ learned model = Some st
    /\ @knn_predict Toy.lib (n_neighbors model) st X = Done labels
    /\ @app Toy.lib (Toy.post "/predict_iris" Toy.one_row) Toy.trained_world
       = (Response 200 (Text (@ndarray_str Toy.lib labels)),
          after Toy.trained_world [Load "knn.pkl"; Predict X]).
Proof.
  apply (@predict_iris_200_only_when Toy.lib); reflexivity.
Defined.

Lemma responses_depend_on_model_file_witness :
  fst (@serve Toy.lib
         [Toy.post "//predict_iris" Toy.one_row; Toy.post "/do_post" Toy.ada]
         Toy.empty_world)
  = fst (@serve Toy.lib
           [Toy.post "//predict_iris" Toy.one_row; Toy.post "/do_post" Toy.ada]
           (World {["static/notes.txt" := [Byte.x41]]} [Load "knn.pkl"])).
Proof.
  apply (@responses_depend_on_model_file Toy.lib).
  - repeat constructor.
  - reflexivity.
Defined.

Lemma failed_training_keeps_files_witness :
  untouched Faulty.old_model_world (snd (@iris_train Faulty.no_fit Faulty.old_model_world))
  /\ exists what, LibraryError "ValueError" = LibraryError what.
Proof.
  apply (@failed_training_keeps_files Faulty.no_fit). reflexivity.
Defined.

Lemma errors_carry_stock_page_witness :
  (forall s,
     content (fst (@app Toy.lib (Request HEAD "/do_post" NoJson) Toy.empty_world)) = Text s ->
     status (fst (@app Toy.lib (Request HEAD "/do_post" NoJson) Toy.empty_world)) = 200%N)
  /\ (status (fst (@app Toy.lib (Request HEAD "/do_post" NoJson) Toy.empty_world)) <> 200%N ->
      content (fst (@app Toy.lib (Request HEAD "/do_post" NoJson) Toy.empty_world)) = NoBody).
Proof.
  apply (@errors_carry_stock_page Toy.lib (Request HEAD "/do_post" NoJson)).
  reflexivity.
Defined.
